(** * PolyU-Video-Agent frontend: a shallow embedding of the chat, session
      and lecture components, and the properties of their handlers.

    The React components are modelled by their state records and by one
    function per handler.  An [async] handler is split at its [await]: the
    part before it returns the new state, the effects it performed and the
    values its closure keeps; the part after it takes the outcome of the
    request.  Exceptions are values of [result], so that [try]/[catch] is an
    ordinary case analysis.  Output on the console is not modelled. *)

From Stdlib Require Import ZArith NArith String Ascii DecimalString.
From Stdlib Require Import Floats.PrimFloat.
From Stdlib Require DecimalPos DecimalZ.
From stdpp Require Import base option list.

Set Default Proof Using "Type".
Set Warnings "-register-all,-inexact-float".
Open Scope Z_scope.

(* ================================================================== *)
(** ** JavaScript values used by the components *)
(* ================================================================== *)

(** A JavaScript string is a sequence of UTF-16 code units. *)
Abbreviation jsstring := (list N).

(** ASCII literals of the source, one code unit per character. *)
Definition lit (s : string) : jsstring :=
  List.map N_of_ascii (list_ascii_of_string s).

(** [Number.prototype.toString] on an integer below 2^53: its decimal
    digits, with a leading minus sign for negative values. *)
Definition number_to_string (n : Z) : jsstring :=
  lit (NilZero.string_of_int (Z.to_int n)).

(** Truthiness of a string: every string but the empty one. *)
Definition truthy (s : jsstring) : bool :=
  match s with [] => false | _ => true end.

(** Truthiness of [string | null] and [string | undefined]. *)
Definition truthy_opt (s : option jsstring) : bool :=
  match s with None => false | Some s => truthy s end.

(** Template-literal rendering of [string | undefined]. *)
Definition template_opt (s : option jsstring) : jsstring :=
  match s with None => lit "undefined" | Some s => s end.

(** WhiteSpace and LineTerminator code units of ECMAScript, the ones
    [String.prototype.trim] strips. *)
Definition is_whitespace (c : N) : bool :=
  match c with
  | 9 | 10 | 11 | 12 | 13 | 32 | 160 | 5760 => true
  | 8232 | 8233 | 8239 | 8287 | 12288 | 65279 => true
  | _ => (8192 <=? c) && (c <=? 8202)
  end%N.

Fixpoint trimStart (s : jsstring) : jsstring :=
  match s with
  | c :: s' => if is_whitespace c then trimStart s' else s
  | [] => []
  end.

Definition trimEnd (s : jsstring) : jsstring := rev (trimStart (rev s)).

Definition trim (s : jsstring) : jsstring := trimEnd (trimStart s).

(** Thrown values. *)
Inductive JsError :=
| SyntaxError (message : jsstring)
| TypeError (message : jsstring)
| Error (message : jsstring).

(** The completion of an expression: a value or a thrown exception. *)
Inductive result (A : Type) :=
| Ok (a : A)
| Throw (e : JsError).
Arguments Ok {A} a.
Arguments Throw {A} e.

#[global] Instance result_ret : MRet result := λ A a, Ok a.
#[global] Instance result_bind : MBind result := λ A B f m,
  match m with Ok a => f a | Throw e => Throw e end.

(** Whether an expression completes with a value. *)
Definition completes {A} (r : result A) : bool :=
  match r with Ok _ => true | Throw _ => false end.

(** [try { body } catch (error) { handler }] around an expression. *)
Definition result_catch {A} (body : result A) (handler : JsError → A) : A :=
  match body with Ok a => a | Throw e => handler e end.

(** Values produced by [JSON.parse].  A number keeps the exact decimal value
    of its literal, [mantissa * 10 ^ exponent]; no handler below computes
    with it. *)
Inductive json :=
| JNull
| JBool (b : bool)
| JNumber (mantissa exponent : Z)
| JString (s : jsstring)
| JArray (items : list json)
| JObject (fields : list (jsstring * json)).

(** [Array.isArray]. *)
Definition isArray (v : json) : bool :=
  match v with JArray _ => true | _ => false end.

(* ================================================================== *)
(** ** The browser interface: requests, responses and other effects *)
(* ================================================================== *)

Inductive http_method := GET | POST | DELETE.

(** The arguments of a [fetch] call.  [body] holds the value handed to
    [JSON.stringify]. *)
Record Request := {
  method : http_method;
  url : jsstring;
  headers : list (jsstring * jsstring);
  body : option json;
}.

(** What a handler reads of a [Response]: [ok], [status] and the completion
    of [await response.json()], typed as the handler types it. *)
Record Response (A : Type) := {
  ok : bool;
  status : Z;
  response_json : result A;
}.
Arguments ok {A} r.
Arguments status {A} r.
Arguments response_json {A} r.

(** How the promise returned by [fetch] settles. *)
Inductive fetch_outcome (A : Type) :=
| Resolved (response : Response A)
| Rejected (reason : JsError).
Arguments Resolved {A} response.
Arguments Rejected {A} reason.

(** [await] on a settled promise. *)
Definition await {A} (o : fetch_outcome A) : result (Response A) :=
  match o with Resolved r => Ok r | Rejected e => Throw e end.

(** [throw new Error(`HTTP error! status: ${response.status}`)]. *)
Definition http_error {A} (r : Response A) : JsError :=
  Error (lit "HTTP error! status: " ++ number_to_string (status r)).

(** Effects a handler performs besides updating its component's state, in
    the order it performs them. *)
Inductive effect :=
| Fetch (request : Request)
| Alert (text : jsstring)
| MessageError (text : jsstring)
| Confirm (text : jsstring)
| Navigate (path : jsstring)
| LocationHref (href : jsstring)
| Reload
| StopPropagation.

(** The requests among the effects of a handler. *)
Definition requests (es : list effect) : list Request :=
  omap (λ e, match e with Fetch r => Some r | _ => None end) es.

(** [API_PREFIX] of [config.ts]. *)
Definition API_PREFIX : jsstring := lit "http://127.0.0.1:8000".

(** Readings of the clock: [Date.now()],
    [new Date().toLocaleString('sv-SE', {timeZone: 'Asia/Shanghai'})] and
    [new Date().toISOString()]. *)
Record Clock := {
  now : Z;
  localeString : jsstring;
  isoString : jsstring;
}.

(* ================================================================== *)
(** ** Handlers as computations *)
(* ================================================================== *)

(** A stretch of a handler between two [await]s: it updates the state [S]
    of its component, performs effects and completes with a value or an
    exception. *)
Definition comp (S A : Type) : Type := S → S * list effect * result A.

#[global] Instance comp_ret {S} : MRet (comp S) := λ A a s, (s, [], Ok a).
#[global] Instance comp_bind {S} : MBind (comp S) := λ A B f m s,
  let '(s1, es1, r) := m s in
  match r with
  | Ok a => let '(s2, es2, r2) := f a s1 in (s2, es1 ++ es2, r2)
  | Throw e => (s1, es1, Throw e)
  end.

Definition perform {S} (e : effect) : comp S () := λ s, (s, [e], Ok ()).
Definition modify {S} (f : S → S) : comp S () := λ s, (f s, [], Ok ()).
Definition get {S} : comp S S := λ s, (s, [], Ok s).
Definition throw {S A} (e : JsError) : comp S A := λ s, (s, [], Throw e).
Definition lift {S A} (r : result A) : comp S A := λ s, (s, [], r).

(** [if (c) { throw e }]. *)
Definition throw_if {S} (c : bool) (e : JsError) : comp S () :=
  if c then throw e else mret ().

(** [try { body } catch (error) { handler error }]. *)
Definition try_catch {S A} (body : comp S A) (handler : JsError → comp S A)
    : comp S A := λ s,
  let '(s1, es1, r) := body s in
  match r with
  | Ok a => (s1, es1, Ok a)
  | Throw e => let '(s2, es2, r2) := handler e s1 in (s2, es1 ++ es2, r2)
  end.

(** [try { body } finally { cleanup }]. *)
Definition try_finally {S A} (body : comp S A) (cleanup : comp S ())
    : comp S A := λ s,
  let '(s1, es1, r) := body s in
  let '(s2, es2, r2) := cleanup s1 in
  (s2, es1 ++ es2, match r2 with Ok _ => r | Throw e => Throw e end).

(** The state, the effects and the completion of a computation. *)
Definition state_of {S A} (x : S * list effect * result A) : S := x.1.1.
Definition effects_of {S A} (x : S * list effect * result A) : list effect := x.1.2.
Definition completion_of {S A} (x : S * list effect * result A) : result A := x.2.

(* ================================================================== *)
(** ** ThinkingPanel.tsx: messages and their conversion *)
(* ================================================================== *)

Module MessageHttpResponse.
Record t := {
  id : jsstring;
  sender : jsstring;
  content : jsstring;
  thinking_process : option jsstring;
  timestamp : jsstring;
}.
End MessageHttpResponse.

Module Message.
(** [sender] is ['user' | 'bot'] for the type checker; at run time it is
    the string the server sent, since the conversion only asserts the
    type.  [thinkingProcess] holds the parsed array as it is. *)
Record t := {
  id : jsstring;
  sender : jsstring;
  content : jsstring;
  thinkingProcess : option (list json);
  timestamp : jsstring;
}.

Definition user : jsstring := lit "user".
Definition bot : jsstring := lit "bot".
End Message.

Module ThinkingPanel.
Section Convert.
(** [JSON.parse] of the runtime. *)
Variable JSON_parse : jsstring → result json.

(** The assignment [convertedMessage.thinkingProcess = ...]. *)
Definition set_thinkingProcess (m : Message.t) (steps : list json) : Message.t :=
  {| Message.id := Message.id m;
     Message.sender := Message.sender m;
     Message.content := Message.content m;
     Message.thinkingProcess := Some steps;
     Message.timestamp := Message.timestamp m |}.

Definition convertHttpResponseToMessage
    (httpResponse : MessageHttpResponse.t) : result Message.t :=
  let convertedMessage :=
    {| Message.id := MessageHttpResponse.id httpResponse;
       Message.sender := MessageHttpResponse.sender httpResponse;
       Message.content := MessageHttpResponse.content httpResponse;
       Message.thinkingProcess := None;
       Message.timestamp := MessageHttpResponse.timestamp httpResponse |} in
  let convertedMessage :=
    match MessageHttpResponse.thinking_process httpResponse with
    | Some thinking_process =>
        if truthy thinking_process then
          result_catch
            (parsedThinkingProcess ← JSON_parse thinking_process;
             match parsedThinkingProcess with
             | JArray steps => Ok (set_thinkingProcess convertedMessage steps)
             | _ => Ok convertedMessage
             end)
            (λ error, convertedMessage)
        else convertedMessage
    | None => convertedMessage
    end in
  Ok convertedMessage.
End Convert.
End ThinkingPanel.

(* ================================================================== *)
(** ** A reference [JSON.parse] *)
(* ================================================================== *)

(** The handlers are parametric in the runtime's [JSON.parse], and every
    general statement about them holds for any parser.  This module gives a
    parser for the grammar of ECMA-404 with which the model runs on the
    concrete strings of the examples.  It returns the syntax tree of the
    text, which differs from the value [JSON.parse] builds in two ways: an
    object keeps all its members in the order they are written (where
    [JSON.parse] keeps, of the members that share a key, the last one only),
    and a number is kept as the decimal literal it is written as, mantissa
    and exponent of ten (where [JSON.parse] rounds it to a binary64).  The
    handlers only test whether the value is an array and store its items;
    the texts of the examples repeat no key, and their numbers ([1], [2]
    and [-2.50e1], that is -25) are ones a binary64 holds exactly. *)
Module JSONRef.

Definition is_ws (c : N) : bool :=
  match c with 32 | 9 | 10 | 13 => true | _ => false end%N.

Fixpoint skip_ws (s : jsstring) : jsstring :=
  match s with
  | c :: s' => if is_ws c then skip_ws s' else s
  | [] => []
  end.

Definition digit (c : N) : option Z :=
  if ((48 <=? c) && (c <=? 57))%N then Some (Z.of_N c - 48) else None.

Definition hex_digit (c : N) : option N :=
  if ((48 <=? c) && (c <=? 57))%N then Some (c - 48)%N
  else if ((65 <=? c) && (c <=? 70))%N then Some (c - 55)%N
  else if ((97 <=? c) && (c <=? 102))%N then Some (c - 87)%N
  else None.

(** A maximal run of digits: its value after [acc], its length, the rest. *)
Fixpoint digits (acc : Z) (len : Z) (s : jsstring) : Z * Z * jsstring :=
  match s with
  | c :: s' =>
      match digit c with
      | Some d => digits (10 * acc + d) (len + 1) s'
      | None => (acc, len, s)
      end
  | [] => (acc, len, [])
  end.

(** The characters of a string after its opening quote. *)
Fixpoint string_body (acc : jsstring) (s : jsstring) : option (jsstring * jsstring) :=
  match s with
  | 34%N :: rest => Some (rev acc, rest)
  | 92%N :: 117%N :: a :: b :: c :: d :: rest =>
      match hex_digit a, hex_digit b, hex_digit c, hex_digit d with
      | Some a, Some b, Some c, Some d =>
          string_body ((4096 * a + 256 * b + 16 * c + d)%N :: acc) rest
      | _, _, _, _ => None
      end
  | 92%N :: e :: rest =>
      match e with
      | 34 | 92 | 47 => string_body (e :: acc) rest
      | 98 => string_body (8 :: acc) rest
      | 102 => string_body (12 :: acc) rest
      | 110 => string_body (10 :: acc) rest
      | 114 => string_body (13 :: acc) rest
      | 116 => string_body (9 :: acc) rest
      | _ => None
      end%N
  | c :: rest => if (c <? 32)%N then None else string_body (c :: acc) rest
  | [] => None
  end.

(** [int frac? exp?] after the optional minus sign. *)
Definition number_body (sign : Z) (s : jsstring) : option (json * jsstring) :=
  let '(int, int_len, rest) := digits 0 0 s in
  let leading_zero := match s with 48%N :: _ => true | _ => false end in
  if (int_len =? 0) || (leading_zero && (1 <? int_len)) then None else
  let after_frac :=
    match rest with
    | 46%N :: rest' =>
        let '(m, frac_len, rest'') := digits int 0 rest' in
        if frac_len =? 0 then None else Some (m, frac_len, rest'')
    | _ => Some (int, 0, rest)
    end in
  '(m, frac_len, rest) ← after_frac;
  let exponent (esign : Z) (s : jsstring) :=
    let '(e, e_len, rest') := digits 0 0 s in
    if e_len =? 0 then None
    else Some (JNumber (sign * m) (esign * e - frac_len), rest') in
  match rest with
  | (69 | 101)%N :: 43%N :: rest' => exponent 1 rest'
  | (69 | 101)%N :: 45%N :: rest' => exponent (-1) rest'
  | (69 | 101)%N :: rest' => exponent 1 rest'
  | _ => Some (JNumber (sign * m) (- frac_len), rest)
  end.

Fixpoint value (fuel : nat) (s : jsstring) : option (json * jsstring) :=
  match fuel with
  | O => None
  | S fuel =>
      match skip_ws s with
      | 110%N :: 117%N :: 108%N :: 108%N :: rest => Some (JNull, rest)
      | 116%N :: 114%N :: 117%N :: 101%N :: rest => Some (JBool true, rest)
      | 102%N :: 97%N :: 108%N :: 115%N :: 101%N :: rest => Some (JBool false, rest)
      | 34%N :: rest =>
          '(str, rest') ← string_body [] rest; Some (JString str, rest')
      | 91%N :: rest =>
          match skip_ws rest with
          | 93%N :: rest' => Some (JArray [], rest')
          | _ => '(items, rest') ← elements fuel [] rest; Some (JArray items, rest')
          end
      | 123%N :: rest =>
          match skip_ws rest with
          | 125%N :: rest' => Some (JObject [], rest')
          | _ => '(fields, rest') ← members fuel [] rest; Some (JObject fields, rest')
          end
      | 45%N :: rest => number_body (-1) rest
      | rest => number_body 1 rest
      end
  end
with elements (fuel : nat) (acc : list json) (s : jsstring)
    : option (list json * jsstring) :=
  match fuel with
  | O => None
  | S fuel =>
      '(v, rest) ← value fuel s;
      match skip_ws rest with
      | 44%N :: rest' => elements fuel (v :: acc) rest'
      | 93%N :: rest' => Some (rev (v :: acc), rest')
      | _ => None
      end
  end
with members (fuel : nat) (acc : list (jsstring * json)) (s : jsstring)
    : option (list (jsstring * json) * jsstring) :=
  match fuel with
  | O => None
  | S fuel =>
      match skip_ws s with
      | 34%N :: rest =>
          '(key, rest') ← string_body [] rest;
          match skip_ws rest' with
          | 58%N :: rest'' =>
              '(v, rest''') ← value fuel rest'';
              match skip_ws rest''' with
              | 44%N :: rest4 => members fuel ((key, v) :: acc) rest4
              | 125%N :: rest4 => Some (rev ((key, v) :: acc), rest4)
              | _ => None
              end
          | _ => None
          end
      | _ => None
      end
  end.

Definition JSON_parse (text : jsstring) : result json :=
  match value (2 * length text + 2) text with
  | Some (v, rest) =>
      match skip_ws rest with
      | [] => Ok v
      | _ => Throw (SyntaxError (lit "Unexpected non-whitespace character after JSON"))
      end
  | None => Throw (SyntaxError (lit "Unexpected token"))
  end.

End JSONRef.

(* ================================================================== *)
(** ** ChatPanel.tsx: the message thread of the selected chat *)
(* ================================================================== *)

(** The body of the response to [POST /api/chat/:id/messages], as
    [handleSend] types it. *)
Module BotResponse.
Record t := {
  id : jsstring;
  user_message_id : jsstring;
  sender : jsstring;
  content : jsstring;
  timestamp : jsstring;
  thinking_process : list json;
}.
End BotResponse.

Module ChatPanel.

Record Props := {
  currentChatId : option jsstring;
  currentModel : jsstring;
}.

Record State := {
  hoveredMessageId : option jsstring;
  messages : list Message.t;
  inputText : jsstring;
  isLoading : bool;
}.

Definition setMessages (f : list Message.t → list Message.t) (s : State) : State :=
  {| hoveredMessageId := hoveredMessageId s; messages := f (messages s);
     inputText := inputText s; isLoading := isLoading s |}.

Definition setInputText (v : jsstring) (s : State) : State :=
  {| hoveredMessageId := hoveredMessageId s; messages := messages s;
     inputText := v; isLoading := isLoading s |}.

Definition setIsLoading (v : bool) (s : State) : State :=
  {| hoveredMessageId := hoveredMessageId s; messages := messages s;
     inputText := inputText s; isLoading := v |}.

(** The synthetic bot message of a failed request. *)
Definition failed_message (content : jsstring) (clock : Clock) : Message.t :=
  {| Message.id := lit "FAKEID-MESSAGE-FAILED" ++ number_to_string (now clock);
     Message.sender := Message.bot;
     Message.content := content;
     Message.thinkingProcess := None;
     Message.timestamp := localeString clock |}.

(** *** handleDeleteMessageClick *)

Definition deleteMessage_request (messageId : jsstring) : Request :=
  {| method := DELETE;
     url := API_PREFIX ++ lit "/api/message/" ++ messageId;
     headers := [];
     body := None |}.

(** What the handler keeps across its [await]: the [messages] of the render
    it was created in, and its argument. *)
Record DeleteClosure := {
  delete_messages : list Message.t;
  delete_messageId : jsstring;
}.

(** Up to [await fetch(...)]. *)
Definition handleDeleteMessageClick (messageId : jsstring)
    : comp State DeleteClosure :=
  s ← get;
  perform StopPropagation;;
  perform (Fetch (deleteMessage_request messageId));;
  mret {| delete_messages := messages s; delete_messageId := messageId |}.

(** From the settling of the request on. *)
Definition handleDeleteMessageClick_settled (k : DeleteClosure)
    (o : fetch_outcome ()) : comp State () :=
  try_catch
    (response ← lift (await o);
     throw_if (negb (ok response)) (http_error response);;
     modify (setMessages (λ _,
       filter (λ msg, Message.id msg ≠ delete_messageId k) (delete_messages k))))
    (λ error,
     perform (Alert (lit "Failed to delete message. Please try again."))).

(** *** The effect that fetches the messages when [currentChatId] changes *)

Definition fetchMessages_request (chatId : jsstring) : Request :=
  {| method := GET;
     url := API_PREFIX ++ lit "/api/chat/" ++ chatId ++ lit "/messages";
     headers := [];
     body := None |}.

Definition fetch_failed_content : jsstring :=
  [10060%N] ++
  lit " Whoops! There seems to be some network issue, please try again later.".

(** Up to [await fetch(...)]; [true] when a request is under way. *)
Definition fetchMessages_effect (p : Props) : comp State bool :=
  match currentChatId p with
  | Some chatId =>
      perform (Fetch (fetchMessages_request chatId));;
      mret true
  | None =>
      modify (setMessages (λ _, []));;
      mret false
  end.

Section FetchMessages.
Variable JSON_parse : jsstring → result json.

(** [all_messages.map(msg => convertHttpResponseToMessage(msg))]. *)
Definition convert_all (all_messages : list MessageHttpResponse.t)
    : result (list Message.t) :=
  mapM (ThinkingPanel.convertHttpResponseToMessage JSON_parse) all_messages.

Definition fetchMessages_settled
    (o : fetch_outcome (list MessageHttpResponse.t)) (clock : Clock)
    : comp State () :=
  try_catch
    (response ← lift (await o);
     (if negb (ok response)
      then perform (LocationHref (lit "/"));; throw (http_error response)
      else mret ());;
     all_messages ← lift (response_json response);
     data ← lift (convert_all all_messages);
     modify (setMessages (λ _, data)))
    (λ error,
     modify (setMessages (λ _, [failed_message fetch_failed_content clock]))).
End FetchMessages.

(** *** handleSend *)

Definition send_request (p : Props) (inputText : jsstring) : Request :=
  {| method := POST;
     url := API_PREFIX ++ lit "/api/chat/" ++ template_opt (currentChatId p)
              ++ lit "/messages";
     headers := [(lit "Content-Type", lit "application/json")];
     body := Some (JObject [(lit "message", JString inputText);
                            (lit "model_name", JString (currentModel p))]) |}.

(** What the handler keeps across its [await]. *)
Record SendClosure := {
  send_messages : list Message.t;
  send_inputText : jsstring;
  temp_user_message_id : jsstring;
  send_timestamp : jsstring;
}.

Definition temp_id (clock : Clock) : jsstring :=
  lit "FAKEID-TEMP-MESSAGE" ++ number_to_string (now clock).

Definition userMessage (id content timestamp : jsstring) : Message.t :=
  {| Message.id := id;
     Message.sender := Message.user;
     Message.content := content;
     Message.thinkingProcess := None;
     Message.timestamp := timestamp |}.

Definition botMessage (botResponse : BotResponse.t) (clock : Clock) : Message.t :=
  {| Message.id := BotResponse.id botResponse;
     Message.sender := BotResponse.sender botResponse;
     Message.content := BotResponse.content botResponse;
     Message.thinkingProcess := Some (BotResponse.thinking_process botResponse);
     Message.timestamp := localeString clock |}.

Definition send_failed_content : jsstring :=
  lit "Sorry, an error occurred while processing your message.".

(** [!inputText.trim() || !currentChatId || isLoading]. *)
Definition send_guard (p : Props) (s : State) : bool :=
  negb (truthy (trim (inputText s))) || negb (truthy_opt (currentChatId p))
  || isLoading s.

(** Up to [await fetch(...)]: [None] when the guard returns at once. *)
Definition handleSend (p : Props) (clock : Clock)
    : comp State (option SendClosure) :=
  s ← get;
  if send_guard p s
  then mret None
  else
    let temp_user_message_id := temp_id clock in
    let timestamp := localeString clock in
    modify (setMessages (λ prev,
      prev ++ [userMessage temp_user_message_id (inputText s) timestamp]));;
    modify (setInputText []);;
    modify (setIsLoading true);;
    perform (Fetch (send_request p (inputText s)));;
    mret (Some {| send_messages := messages s;
                  send_inputText := inputText s;
                  temp_user_message_id := temp_user_message_id;
                  send_timestamp := timestamp |}).

(** From the settling of the request on. *)
Definition handleSend_settled (k : SendClosure)
    (o : fetch_outcome BotResponse.t) (clock : Clock) : comp State () :=
  try_finally
    (try_catch
       (response ← lift (await o);
        throw_if (negb (ok response)) (http_error response);;
        botResponse ← lift (response_json response);
        let lastMessage :=
          userMessage (BotResponse.user_message_id botResponse)
                      (send_inputText k) (send_timestamp k) in
        let newMessages :=
          filter (λ message, Message.id message ≠ temp_user_message_id k)
                 (send_messages k) in
        let newMessages :=
          newMessages ++ [lastMessage; botMessage botResponse clock] in
        modify (setMessages (λ _, newMessages)))
       (λ error,
        modify (setMessages (λ prev,
          prev ++ [failed_message send_failed_content clock]))))
    (modify (setIsLoading false)).

End ChatPanel.

(* ================================================================== *)
(** ** ChatPage.tsx, Sidebar.tsx and InitPage.tsx: the chat sessions *)
(* ================================================================== *)

Module BackendStatus.
Record t := {
  ok : bool;
  storage : jsstring;
  cache : jsstring;
  logger : jsstring;
  db : jsstring;
  ready : bool;
}.
End BackendStatus.

Module ChatSession.
Record t := {
  id : jsstring;
  title : jsstring;
  updated_at : jsstring;
}.
End ChatSession.

Module ChatPage.

Record State := {
  backendStatus : BackendStatus.t;
  isSidebarOpen : bool;
  currentModel : jsstring;
  currentChatId : option jsstring;
  availableChats : list ChatSession.t;
}.

Definition SetBackendStatus (v : BackendStatus.t) (s : State) : State :=
  {| backendStatus := v; isSidebarOpen := isSidebarOpen s;
     currentModel := currentModel s; currentChatId := currentChatId s;
     availableChats := availableChats s |}.

Definition setIsSidebarOpen (v : bool) (s : State) : State :=
  {| backendStatus := backendStatus s; isSidebarOpen := v;
     currentModel := currentModel s; currentChatId := currentChatId s;
     availableChats := availableChats s |}.

Definition setCurrentChatId (v : option jsstring) (s : State) : State :=
  {| backendStatus := backendStatus s; isSidebarOpen := isSidebarOpen s;
     currentModel := currentModel s; currentChatId := v;
     availableChats := availableChats s |}.

Definition setAvailableChats (f : list ChatSession.t → list ChatSession.t)
    (s : State) : State :=
  {| backendStatus := backendStatus s; isSidebarOpen := isSidebarOpen s;
     currentModel := currentModel s; currentChatId := currentChatId s;
     availableChats := f (availableChats s) |}.

Definition NetworkFailuireBackendStatus : BackendStatus.t :=
  {| BackendStatus.ok := false; BackendStatus.storage := lit "?";
     BackendStatus.cache := lit "?"; BackendStatus.logger := lit "?";
     BackendStatus.db := lit "?"; BackendStatus.ready := false |}.

(** *** The effect that fetches the chat list when [currentChatId] changes *)



Definition fetchChatHistory_settled (closure_currentChatId : option jsstring)
    (o : fetch_outcome (list ChatSession.t)) : comp State () :=
  try_catch
    (response ← lift (await o);
     throw_if (negb (ok response)) (http_error response);;
     data ← lift (response_json response);
     modify (setAvailableChats (λ _, data));;
     match data, closure_currentChatId with
     | first :: _, None => modify (setCurrentChatId (Some (ChatSession.id first)))
     | _, _ => mret ()
     end)
    (λ error,
     modify (SetBackendStatus NetworkFailuireBackendStatus);;
     modify (setAvailableChats (λ _, []))).

(** *** handleNewChat *)

Module NewChatData.
Record t := {
  id : jsstring;
  title : jsstring;
}.
End NewChatData.

Definition newChat_request : Request :=
  {| method := POST; url := API_PREFIX ++ lit "/api/chats/new";
     headers := []; body := None |}.

Definition handleNewChat : comp State () :=
  perform (Fetch newChat_request).

Definition handleNewChat_settled (o : fetch_outcome NewChatData.t)
    (clock : Clock) : comp State () :=
  try_catch
    (response ← lift (await o);
     throw_if (negb (ok response)) (http_error response);;
     newChatData ← lift (response_json response);
     modify (setAvailableChats (λ prev,
       {| ChatSession.id := NewChatData.id newChatData;
          ChatSession.title := NewChatData.title newChatData;
          ChatSession.updated_at := isoString clock |} :: prev));;
     modify (setCurrentChatId (Some (NewChatData.id newChatData)));;
     perform (Navigate (lit "/chat/" ++ NewChatData.id newChatData)))
    (λ error, mret ()).

(** *** handleSelectChat, handleDeleteChat *)

Definition handleSelectChat (chatId : jsstring) : comp State () :=
  modify (setCurrentChatId (Some chatId));;
  perform (Navigate (lit "/chat/" ++ chatId)).

(** [handleDeleteChat] is called by the sidebar once its request is
    answered.  [closure_currentChatId] is the [currentChatId] of the render
    that made the handler, which is what its body compares with; the list
    is updated functionally, on the state the call finds. *)
Definition handleDeleteChat (closure_currentChatId : option jsstring)
    (chatId : jsstring) : comp State () :=
  modify (setAvailableChats (λ prev,
    filter (λ chat, ChatSession.id chat ≠ chatId) prev));;
  if bool_decide (closure_currentChatId = Some chatId)
  then modify (setCurrentChatId None);; perform (Navigate (lit "/"))
  else mret ().

End ChatPage.

Module Sidebar.
Section Handlers.
(** The state of the component that owns [onDeleteChat]. *)
Context {S : Type}.
Variable chats : list ChatSession.t.
Variable onDeleteChat : jsstring → comp S ().

Definition deleteChat_request (chatId : jsstring) : Request :=
  {| method := DELETE; url := API_PREFIX ++ lit "/api/chat/" ++ chatId;
     headers := []; body := None |}.

(** [chats.find(c => c.id === chatId)?.title || 'Untitled']. *)
Definition title_of (chatId : jsstring) : jsstring :=
  match List.find (λ c, bool_decide (ChatSession.id c = chatId)) chats with
  | Some c => if truthy (ChatSession.title c) then ChatSession.title c
              else lit "Untitled"
  | None => lit "Untitled"
  end.

Definition confirm_text (chatId : jsstring) : jsstring :=
  lit "Are you sure you want to delete the chat " ++ [34%N]
      ++ title_of chatId ++ [34%N] ++ lit "?".

(** Up to [await fetch(...)]; [confirmed] is the answer to
    [window.confirm]; [true] when a request is under way. *)
Definition handleDeleteClick (chatId : jsstring) (confirmed : bool)
    : comp S bool :=
  perform StopPropagation;;
  perform (Confirm (confirm_text chatId));;
  if confirmed
  then perform (Fetch (deleteChat_request chatId));; mret true
  else mret false.

Definition handleDeleteClick_settled (chatId : jsstring)
    (o : fetch_outcome ()) : comp S () :=
  try_catch
    (response ← lift (await o);
     throw_if (negb (ok response)) (http_error response);;
     onDeleteChat chatId)
    (λ error,
     perform (Alert (lit "Failed to delete chat. Please try again."))).
End Handlers.
End Sidebar.

Module InitPage.

Definition State := BackendStatus.t.



Definition checkHealth_settled (o : fetch_outcome BackendStatus.t)
    : comp State () :=
  try_catch
    (response ← lift (await o);
     throw_if (negb (ok response)) (http_error response);;
     data ← lift (response_json response);
     if BackendStatus.ok data && BackendStatus.ready data then perform Reload
     else if BackendStatus.ok data then modify (λ _, data)
     else mret ())
    (λ err, mret ()).

End InitPage.

(* ================================================================== *)
(** ** The video pages: PlayGround, LectureVideoAnalysis, LectureSections,
       LectureTranscripts *)
(* ================================================================== *)

(** A [number] is an IEEE 754 binary64 value. *)
Abbreviation number := PrimFloat.float.

(** What the pages read and write of an [HTMLVideoElement]. *)
Record HTMLVideoElement := {
  currentTime : number;
  paused : bool;
}.

Module Thumbnail.
Record t := {
  time_second : number;
  image_url : jsstring;
}.
End Thumbnail.

Module VideoData.
Record t := {
  id : number;
  title : jsstring;
  video_url : jsstring;
  thumbnails : list Thumbnail.t;
}.
End VideoData.

Module PlayGround.

Record State := {
  videoData : option VideoData.t;
  loading : bool;
}.

Definition setVideoData (v : option VideoData.t) (s : State) : State :=
  {| videoData := v; loading := loading s |}.

Definition setLoading (v : bool) (s : State) : State :=
  {| videoData := videoData s; loading := v |}.




(** [Promise.all] rejects with the reason of the first promise found
    rejected. *)
Definition promise_all {A B} (a : fetch_outcome A) (b : fetch_outcome B)
    : result (Response A * Response B) :=
  ra ← await a; rb ← await b; mret (ra, rb).

Definition fetchData_settled (videoRes : fetch_outcome VideoData.t)
    (thumbsRes : fetch_outcome (list Thumbnail.t)) : comp State () :=
  try_finally
    (try_catch
       ('(videoRes, thumbsRes) ← lift (promise_all videoRes thumbsRes);
        video ← lift (response_json videoRes);
        thumbnails ← lift (response_json thumbsRes);
        modify (setVideoData (Some
          {| VideoData.id := VideoData.id video;
             VideoData.title := VideoData.title video;
             VideoData.video_url := VideoData.video_url video;
             VideoData.thumbnails := thumbnails |})))
       (λ err, perform (MessageError (lit "Failed to load video resources"))))
    (modify (setLoading false)).

End PlayGround.

Module ThumbnailItem.
Record t := {
  id : jsstring;
  timeSecond : number;
  imageUrl : jsstring;
}.
End ThumbnailItem.

Module LectureVideoAnalysis.

Record State := {
  thumbnails : list ThumbnailItem.t;
  videoUrl : jsstring;
  (** [videoRef.current] *)
  videoRef : option HTMLVideoElement;
}.

Definition setThumbnails (v : list ThumbnailItem.t) (s : State) : State :=
  {| thumbnails := v; videoUrl := videoUrl s; videoRef := videoRef s |}.

Definition setVideoUrl (v : jsstring) (s : State) : State :=
  {| thumbnails := thumbnails s; videoUrl := v; videoRef := videoRef s |}.

(** [videoRef.current.currentTime = time; videoRef.current.play()]. *)
Definition seek_and_play (time : number) (s : State) : State :=
  {| thumbnails := thumbnails s; videoUrl := videoUrl s;
     videoRef := match videoRef s with
                 | Some v => Some {| currentTime := time; paused := false |}
                 | None => None
                 end |}.

Definition jumpVideoTime (time : number) : comp State () :=
  modify (seek_and_play time).






(** The body is typed by what is read of it: [data['video_url']]. *)
Definition fetchVideoSource_settled (o : fetch_outcome jsstring)
    : comp State () :=
  try_catch
    (response ← lift (await o);
     throw_if (negb (ok response)) (http_error response);;
     video_url ← lift (response_json response);
     modify (setVideoUrl video_url))
    (λ error, mret ()).

(** The body is typed by what [transformResponse] makes of it. *)
Definition fetchSlidesThumbnails_settled
    (o : fetch_outcome (list ThumbnailItem.t)) : comp State () :=
  try_catch
    (response ← lift (await o);
     throw_if (negb (ok response)) (http_error response);;
     thumbnails ← lift (response_json response);
     modify (setThumbnails thumbnails))
    (λ error, mret ()).

End LectureVideoAnalysis.

Module Section_.
(** [begin_time] is declared to be in seconds. *)
Record t := {
  id : number;
  begin_time : number;
  text : jsstring;
}.
End Section_.

Module LectureSections.

Record State := {
  sections : option (list Section_.t);
  loading : bool;
}.

Definition setSections (v : option (list Section_.t)) (s : State) : State :=
  {| sections := v; loading := loading s |}.

Definition setLoading (v : bool) (s : State) : State :=
  {| sections := sections s; loading := v |}.

Definition sections_request (videoId : option jsstring) : Request :=
  {| method := GET;
     url := API_PREFIX ++ lit "/api/videos/" ++ template_opt videoId
              ++ lit "/sections";
     headers := []; body := None |}.

Definition mock_data : list Section_.t :=
  [ {| Section_.id := 1; Section_.begin_time := 0;
       Section_.text := lit "Introduction to the lecture and overview of topics." |};
    {| Section_.id := 2; Section_.begin_time := 300;
       Section_.text := lit "Deep dive into the first topic with examples." |};
    {| Section_.id := 3; Section_.begin_time := 900;
       Section_.text := lit "Discussion on advanced concepts and applications." |};
    {| Section_.id := 4; Section_.begin_time := 1500;
       Section_.text := lit "Summary and conclusion of the lecture." |} ]%float.

Definition fetchSections (videoId : option jsstring) : comp State () :=
  perform (Fetch (sections_request videoId)).

(** The response is awaited and then left unread. *)
Definition fetchSections_settled (o : fetch_outcome (list Section_.t))
    : comp State () :=
  try_catch
    (response ← lift (await o);
     let data := mock_data in
     modify (setSections (Some data));;
     modify (setLoading false))
    (λ error, mret ()).

(** [dataSource={sections || []}]. *)
Definition dataSource (s : State) : list Section_.t :=
  default [] (sections s).

(** [onClick] of the item rendered for [section]. *)
Definition onClick {S} (handleItemClick : number → comp S ())
    (section : Section_.t) : comp S () :=
  handleItemClick (Section_.begin_time section / 1000)%float.

End LectureSections.

Module Sentence.
(** [begin_time] and [end_time] are declared to be in milliseconds. *)
Record t := {
  channel_id : number;
  sentence_id : number;
  begin_time : number;
  end_time : number;
  language : jsstring;
  emotion : jsstring;
  text : jsstring;
}.
End Sentence.

Module TranscriptData.
Record t := {
  video_id : jsstring;
  file_url : jsstring;
  format : jsstring;
  sample_rate : number;
  sentences : list Sentence.t;
}.
End TranscriptData.

Module LectureTranscripts.

Record State := {
  transcriptData : option TranscriptData.t;
  loading : bool;
}.

Definition setTranscriptData (v : option TranscriptData.t) (s : State) : State :=
  {| transcriptData := v; loading := loading s |}.

Definition setLoading (v : bool) (s : State) : State :=
  {| transcriptData := transcriptData s; loading := v |}.



Definition fetchTranscripts_settled (o : fetch_outcome TranscriptData.t)
    : comp State () :=
  try_catch
    (response ← lift (await o);
     throw_if (negb (ok response)) (http_error response);;
     data ← lift (response_json response);
     modify (setTranscriptData (Some data));;
     modify (setLoading false))
    (λ error, mret ()).

(** [onClick] of the item rendered for [sentence]. *)
Definition onClick {S} (handleItemClick : number → comp S ())
    (sentence : Sentence.t) : comp S () :=
  handleItemClick (Sentence.begin_time sentence / 1000)%float.

End LectureTranscripts.

(* ================================================================== *)
(** ** Notions used in the statements, and sample values *)
(* ================================================================== *)

(** The message before [thinking_process] is looked at. *)
Definition basic_mapping (r : MessageHttpResponse.t) : Message.t :=
  {| Message.id := MessageHttpResponse.id r;
     Message.sender := MessageHttpResponse.sender r;
     Message.content := MessageHttpResponse.content r;
     Message.thinkingProcess := None;
     Message.timestamp := MessageHttpResponse.timestamp r |}.

(** The identifiers of a message list, in its order. *)
Definition ids (l : list Message.t) : list jsstring := Message.id <$> l.

(** Message identifiers are unique within the list. *)
Definition unique_ids (l : list Message.t) : Prop := NoDup (ids l).

(** A client-made identifier: one that begins with [FAKEID-]. *)
Definition is_temporary (id : jsstring) : Prop := lit "FAKEID-" `prefix_of` id.

(** A request that fails: the promise is rejected or the status is not
    in the 2xx range. *)
Definition http_failed {A} (o : fetch_outcome A) : bool :=
  match o with
  | Rejected _ => true
  | Resolved r => negb (ok r)
  end.

(** A request whose handler reads the body fails as well when the body is
    not the JSON expected. *)
Definition request_failed {A} (o : fetch_outcome A) : bool :=
  match o with
  | Rejected _ => true
  | Resolved r => negb (ok r) || negb (completes (response_json r))
  end.

(** A stored bot message whose reasoning trace has two steps. *)
Definition stored_bot_message : MessageHttpResponse.t :=
  {| MessageHttpResponse.id := lit "42";
     MessageHttpResponse.sender := lit "bot";
     MessageHttpResponse.content := lit "GBM is explained at 12:30.";
     MessageHttpResponse.thinking_process :=
       Some (lit "[{" ++ [34%N] ++ lit "step" ++ [34%N] ++ lit ":1}, {"
               ++ [34%N] ++ lit "step" ++ [34%N] ++ lit ":2}]");
     MessageHttpResponse.timestamp := lit "2025-11-02 10:00:00" |}.

(** The message a send appends before its request is answered. *)
Definition optimistic_message (s : ChatPanel.State) (clock : Clock) : Message.t :=
  ChatPanel.userMessage (ChatPanel.temp_id clock) (ChatPanel.inputText s)
                        (localeString clock).

(** "Appended optimistically, then replaced by the response": the send
    starts, the list grows by the optimistic message, and once the response
    is in no message carries the temporary identifier and the list is the
    one before the send followed by the user message under its server
    identifier and by the bot message. *)
Definition reconciled (p : ChatPanel.Props) (s : ChatPanel.State)
    (clock : Clock) (response : Response BotResponse.t)
    (botResponse : BotResponse.t) (clock' : Clock) : Prop :=
  let started := ChatPanel.handleSend p clock s in
  ∃ k, completion_of started = Ok (Some k)
    ∧ ChatPanel.messages (state_of started)
      = ChatPanel.messages s ++ [optimistic_message s clock]
    ∧ (let final := ChatPanel.handleSend_settled k (Resolved response) clock'
                      (state_of started) in
       (ChatPanel.temp_id clock ∉ ids (ChatPanel.messages (state_of final)))
       ∧ ChatPanel.messages (state_of final)
         = ChatPanel.messages s
           ++ [ChatPanel.userMessage (BotResponse.user_message_id botResponse)
                 (ChatPanel.inputText s) (localeString clock);
               ChatPanel.botMessage botResponse clock']).

(** "Rolled back on error": once the request has failed, the optimistic
    message is no longer in the list. *)
Definition rolled_back (p : ChatPanel.Props) (s : ChatPanel.State)
    (clock : Clock) (o : fetch_outcome BotResponse.t) (clock' : Clock) : Prop :=
  let started := ChatPanel.handleSend p clock s in
  ∃ k, completion_of started = Ok (Some k)
    ∧ (let final := ChatPanel.handleSend_settled k o clock' (state_of started) in
       optimistic_message s clock ∉ ChatPanel.messages (state_of final)).

(** A synthetic bot message: one from the bot under a client-made
    identifier. *)
Definition synthetic (m : Message.t) : Prop :=
  Message.sender m = Message.bot ∧ is_temporary (Message.id m).

(** "Surfaced either as a single synthetic bot message appended to the
    message list or as a browser alert". *)
Definition surfaced (before after : list Message.t) (es : list effect) : Prop :=
  (∃ m, synthetic m ∧ after = before ++ [m]) ∨ (∃ text, Alert text ∈ es).

(** "Caught within the handler, surfaced, and not retried", for a handler
    that ran from a list [before] to the outcome [run]. *)
Definition failure_handled {S} (messages_of : S → list Message.t)
    (before : S) (run : S * list effect * result ()) : Prop :=
  completion_of run = Ok ()
  ∧ surfaced (messages_of before) (messages_of (state_of run)) (effects_of run)
  ∧ requests (effects_of run) = [].

(** An identifier occurs in the address of a request. *)
Definition occurs_in (id : jsstring) (r : Request) : Prop :=
  ∃ before behind, url r = before ++ id ++ behind.

(** "No temporary identifier is sent to the backend", for the requests
    among the effects [es]. *)
Definition temporary_ids_stay_local (es : list effect) : Prop :=
  ∀ r id, r ∈ requests es → is_temporary id → ¬ occurs_in id r.

(** "The update preserves the uniqueness of the identifiers." *)
Definition preserves_unique_ids (before after : list Message.t) : Prop :=
  unique_ids before → unique_ids after.





(** Only whitespace, if anything. *)
Definition blank (s : jsstring) : Prop := Forall (λ c, is_whitespace c = true) s.

(** Sample values: a selected chat, a clock, a thread and responses. *)
Definition sample_props : ChatPanel.Props :=
  {| ChatPanel.currentChatId := Some (lit "c1");
     ChatPanel.currentModel := lit "qwen-turbo" |}.

Definition sample_clock (n : Z) : Clock :=
  {| now := n;
     localeString := lit "2025-11-02 10:00:00";
     isoString := lit "2025-11-02T02:00:00.000Z" |}.

Definition sample_message (id sender content : jsstring) : Message.t :=
  {| Message.id := id; Message.sender := sender; Message.content := content;
     Message.thinkingProcess := None;
     Message.timestamp := lit "2025-11-02 09:00:00" |}.

Definition sample_state (messages : list Message.t) (inputText : jsstring)
    : ChatPanel.State :=
  {| ChatPanel.hoveredMessageId := None; ChatPanel.messages := messages;
     ChatPanel.inputText := inputText; ChatPanel.isLoading := false |}.

Definition sample_botResponse (id user_message_id : jsstring) : BotResponse.t :=
  {| BotResponse.id := id; BotResponse.user_message_id := user_message_id;
     BotResponse.sender := lit "bot"; BotResponse.content := lit "Hi!";
     BotResponse.timestamp := lit "2025-11-02 02:00:01";
     BotResponse.thinking_process := [] |}.

Definition sample_closure : ChatPanel.SendClosure :=
  {| ChatPanel.send_messages :=
       [sample_message (lit "m1") (lit "user") (lit "hello")];
     ChatPanel.send_inputText := lit "When was GBM explained?";
     ChatPanel.temp_user_message_id := ChatPanel.temp_id (sample_clock 1762048800000);
     ChatPanel.send_timestamp := localeString (sample_clock 1762048800000) |}.

Definition sample_stored (id : jsstring) : MessageHttpResponse.t :=
  {| MessageHttpResponse.id := id;
     MessageHttpResponse.sender := lit "user";
     MessageHttpResponse.content := lit "hello";
     MessageHttpResponse.thinking_process := None;
     MessageHttpResponse.timestamp := lit "2025-11-02 09:00:00" |}.

Definition sample_session (id : jsstring) : ChatSession.t :=
  {| ChatSession.id := id; ChatSession.title := lit "Lecture 1";
     ChatSession.updated_at := lit "2025-11-02T02:00:00.000Z" |}.

(** Three sessions, the second one selected. *)
Definition sample_page : ChatPage.State :=
  {| ChatPage.backendStatus := ChatPage.NetworkFailuireBackendStatus;
     ChatPage.isSidebarOpen := true;
     ChatPage.currentModel := lit "qwen-turbo";
     ChatPage.currentChatId := Some (lit "b");
     ChatPage.availableChats :=
       [sample_session (lit "a"); sample_session (lit "b");
        sample_session (lit "c")] |}.

Definition ok_response {A} (a : A) : Response A :=
  {| ok := true; status := 200; response_json := Ok a |}.

Definition error_response {A} (status : Z) : Response A :=
  {| ok := false; status := status;
     response_json := Throw (SyntaxError (lit "Unexpected token")) |}.

Definition network_error : JsError := TypeError (lit "Failed to fetch").

(* ================================================================== *)
(** ** The input row of the chat panel: LoadingButton.tsx and the key and
       change handlers of ChatPanel.tsx *)
(* ================================================================== *)

Module LoadingButton.

(** [handleClick]: [onClick] is called only when the button is not
    disabled.  The value is what [onClick] keeps across its [await], if it
    ran and kept anything. *)
Definition handleClick {S A} (disabled : bool) (onClick : comp S (option A))
    : comp S (option A) :=
  if negb disabled then onClick else mret None.

End LoadingButton.

Module ChatPanelInput.
Import ChatPanel.

(** What [handleKeyDown] reads of the event. *)
Record KeyboardEvent := {
  key : jsstring;
  shiftKey : bool;
}.

(** The [disabled] property handed to the Submit button. *)
Definition submit_disabled (p : Props) (s : State) : bool :=
  isLoading s || negb (truthy (trim (inputText s)))
  || negb (truthy_opt (currentChatId p)).

(** A click on the Submit button, whose [onClick] is [handleSend]. *)
Definition submit_click (p : Props) (clock : Clock)
    : comp State (option SendClosure) :=
  s ← get;
  LoadingButton.handleClick (submit_disabled p s) (handleSend p clock).

(** [handleKeyDown]: the first component tells whether [preventDefault]
    was called on the event. *)
Definition handleKeyDown (e : KeyboardEvent) (p : Props) (clock : Clock)
    : comp State (bool * option SendClosure) :=
  if bool_decide (key e = lit "Enter") && negb (shiftKey e)
  then k ← handleSend p clock; mret (true, k)
  else mret (false, None).

Definition handleInputChange (value : jsstring) : comp State () :=
  modify (setInputText value).

End ChatPanelInput.

(* ================================================================== *)
(** ** Timers, LectureChatbot.tsx and UploadVideo.tsx *)
(* ================================================================== *)

(** Effects of the components that use timers. *)
Inductive timer_effect :=
| Browser (e : effect)
| SetInterval (delay : Z)
| ClearInterval
| SetTimeout (delay : Z)
| PreventDefault.

Module ChatMessage.
(** [id] is a reading of [Date.now()]. *)
Record t := {
  id : Z;
  text : jsstring;
  sender : jsstring;
}.

Definition user : jsstring := lit "user".
Definition agent : jsstring := lit "agent".
End ChatMessage.

Module LectureChatBot.

Record State := {
  chatMessages : list ChatMessage.t;
  inputValue : jsstring;
}.

Definition setChatMessages (f : list ChatMessage.t → list ChatMessage.t)
    (s : State) : State :=
  {| chatMessages := f (chatMessages s); inputValue := inputValue s |}.

Definition setInputValue (v : jsstring) (s : State) : State :=
  {| chatMessages := chatMessages s; inputValue := v |}.

Definition addAgentMessage (text : jsstring) (clock : Clock) (s : State) : State :=
  setChatMessages (λ prev,
    prev ++ [{| ChatMessage.id := now clock; ChatMessage.text := text;
                ChatMessage.sender := ChatMessage.agent |}]) s.

(** The text of the simulated answer to [inputValue]. *)
Definition answer_to (inputValue : jsstring) : jsstring :=
  lit "I received your query: " ++ [34%N] ++ inputValue ++ [34%N]
    ++ lit ". Here's what I found...".

(** A pending [setTimeout]: its delay and the [inputValue] that its
    callback closed over. *)
Record Timeout := {
  delay : Z;
  closure_inputValue : jsstring;
}.

Definition handleSendMessage (clock : Clock) (s : State)
    : State * option Timeout :=
  if negb (truthy (trim (inputValue s))) then (s, None)
  else
    (setInputValue []
       (setChatMessages (λ prev,
          prev ++ [{| ChatMessage.id := now clock;
                      ChatMessage.text := inputValue s;
                      ChatMessage.sender := ChatMessage.user |}]) s),
     Some {| delay := 1000; closure_inputValue := inputValue s |}).

(** The callback of the timeout, when it fires. *)
Definition timeout_fired (t : Timeout) (clock : Clock) (s : State) : State :=
  addAgentMessage (answer_to (closure_inputValue t)) clock s.

End LectureChatBot.

Module UploadVideo.

(** What the handlers read of a [File]. *)
Record File := {
  name : jsstring;
  type : jsstring;
}.

(** The state of the component, the [uploadProgress] it sets through
    [setUploadProgress], and whether the interval of [startUpload] is
    running. *)
Record State := {
  isProcessing : bool;
  isUploading : bool;
  inputValue : jsstring;
  uploadProgress : number;
  interval : bool;
}.

Definition startUpload (s : State) : State * list timer_effect :=
  ({| isProcessing := isProcessing s; isUploading := true;
      inputValue := inputValue s; uploadProgress := 0%float;
      interval := true |},
   [SetInterval 200]).

(** One run of the interval's callback: the updater handed to
    [setUploadProgress]. *)
Definition tick (s : State) : State * list timer_effect :=
  if (100 <=? uploadProgress s)%float
  then ({| isProcessing := isProcessing s; isUploading := isUploading s;
           inputValue := inputValue s; uploadProgress := 100%float;
           interval := false |},
        [ClearInterval; SetTimeout 500])
  else ({| isProcessing := isProcessing s; isUploading := isUploading s;
           inputValue := inputValue s;
           uploadProgress := (uploadProgress s + 10)%float;
           interval := interval s |},
        []).

(** [finishUpload], the callback of the 500 ms timeout. *)
Definition finishUpload (s : State) : State * list timer_effect :=
  ({| isProcessing := true; isUploading := false;
      inputValue := inputValue s; uploadProgress := uploadProgress s;
      interval := interval s |},
   [SetTimeout 3000]).

(** The callback of the 3000 ms timeout. *)
Definition processing_done (s : State) : State :=
  {| isProcessing := false; isUploading := isUploading s;
     inputValue := inputValue s; uploadProgress := uploadProgress s;
     interval := interval s |}.

(** [file.type.startsWith('video/')]. *)
Definition is_video (file : File) : bool :=
  bool_decide (lit "video/" `prefix_of` type file).

(** [handleFileChange] on the files of the input, [e.target.files]. *)
Definition handleFileChange (files : list File) (s : State)
    : State * list timer_effect :=
  match files with
  | file :: _ =>
      if is_video file then startUpload s
      else (s, [Browser (MessageError (lit "Please upload a video file"))])
  | [] => (s, [])
  end.

(** [handleDrop] on the files dragged in, [e.dataTransfer.files]. *)
Definition handleDrop (files : list File) (s : State)
    : State * list timer_effect :=
  match files with
  | file :: _ =>
      if is_video file
      then let '(s', es) := startUpload s in (s', PreventDefault :: es)
      else (s, [PreventDefault;
                Browser (MessageError (lit "Please upload a video file"))])
  | [] => (s, [PreventDefault])
  end.

(** The state after [n] runs of the interval's callback. *)
Fixpoint ticks (n : nat) (s : State) : State :=
  match n with
  | O => s
  | S n => (tick (ticks n s)).1
  end.

End UploadVideo.

(** The load of [PlayGround] fails when a promise is rejected or a body
    is not readable; the status of the responses plays no part. *)
Definition load_failed (videoRes : fetch_outcome VideoData.t)
    (thumbsRes : fetch_outcome (list Thumbnail.t)) : bool :=
  match videoRes, thumbsRes with
  | Resolved video, Resolved thumbs =>
      negb (completes (response_json video))
      || negb (completes (response_json thumbs))
  | _, _ => true
  end.

(** An upload page at rest. *)
Definition sample_upload : UploadVideo.State :=
  {| UploadVideo.isProcessing := false; UploadVideo.isUploading := false;
     UploadVideo.inputValue := []; UploadVideo.uploadProgress := 0%float;
     UploadVideo.interval := false |}.

(* ================================================================== *)
(** ** Properties *)
(* ================================================================== *)

(** Settles a decidable closed proposition by evaluation. *)
Ltac by_evaluation := apply (bool_decide_unpack _); vm_compute; exact I.

(** Unfolds the operations of [comp] in a handler. *)
Ltac run_comp :=
  cbv [mbind comp_bind mret comp_ret get modify perform lift throw throw_if
       try_catch try_finally await].

(** *** The reference parser on a few texts *)

Example JSON_parse_steps :
  JSONRef.JSON_parse
    (lit "[{" ++ [34%N] ++ lit "step" ++ [34%N] ++ lit ": 1, " ++ [34%N]
       ++ lit "type" ++ [34%N] ++ lit ": " ++ [34%N] ++ lit "retrieve"
       ++ [34%N] ++ lit "}, null, -2.50e1]")
  = Ok (JArray [JObject [(lit "step", JNumber 1 0);
                         (lit "type", JString (lit "retrieve"))];
                JNull; JNumber (-250) (-1)]).
Proof. vm_compute. reflexivity. Qed.

Example JSON_parse_empty_text : completes (JSONRef.JSON_parse []) = false.
Proof. reflexivity. Qed.

Example JSON_parse_rejects :
  completes <$> (JSONRef.JSON_parse <$>
    [lit "[1,]"; lit "01"; lit "[1 2]"; lit "nul"; lit "{1:2}"; lit "[] x"])
  = [false; false; false; false; false; false].
Proof. vm_compute. reflexivity. Qed.

(** *** convertHttpResponseToMessage *)

Section ConvertFacts.
Variable JSON_parse : jsstring → result json.

Local Abbreviation convert := (ThinkingPanel.convertHttpResponseToMessage JSON_parse).

Lemma convert_absent r :
  MessageHttpResponse.thinking_process r = None →
  convert r = Ok (basic_mapping r).
Proof.
  intros Hnone. unfold ThinkingPanel.convertHttpResponseToMessage.
  by rewrite Hnone.
Qed.

Lemma convert_empty r :
  MessageHttpResponse.thinking_process r = Some [] →
  convert r = Ok (basic_mapping r).
Proof.
  intros Hsome. unfold ThinkingPanel.convertHttpResponseToMessage.
  by rewrite Hsome.
Qed.

Lemma convert_throw r text e :
  MessageHttpResponse.thinking_process r = Some text →
  JSON_parse text = Throw e →
  convert r = Ok (basic_mapping r).
Proof.
  intros Hsome Hparse. unfold ThinkingPanel.convertHttpResponseToMessage.
  rewrite Hsome. destruct (truthy text); [|done].
  by rewrite Hparse.
Qed.

Lemma convert_not_array r text v :
  MessageHttpResponse.thinking_process r = Some text →
  JSON_parse text = Ok v →
  isArray v = false →
  convert r = Ok (basic_mapping r).
Proof.
  intros Hsome Hparse Harr. unfold ThinkingPanel.convertHttpResponseToMessage.
  rewrite Hsome. destruct (truthy text); [|done].
  rewrite Hparse. by destruct v.
Qed.

Lemma convert_array r text steps :
  truthy text = true →
  MessageHttpResponse.thinking_process r = Some text →
  JSON_parse text = Ok (JArray steps) →
  convert r = Ok (ThinkingPanel.set_thinkingProcess (basic_mapping r) steps).
Proof.
  intros Htruthy Hsome Hparse.
  unfold ThinkingPanel.convertHttpResponseToMessage.
  by rewrite Hsome, Htruthy, Hparse.
Qed.

(** Whatever [thinking_process] holds, the conversion completes and the four
    plain fields are those of the response. *)
Lemma convert_total r :
  ∃ m, convert r = Ok m
       ∧ Message.id m = MessageHttpResponse.id r
       ∧ Message.sender m = MessageHttpResponse.sender r
       ∧ Message.content m = MessageHttpResponse.content r
       ∧ Message.timestamp m = MessageHttpResponse.timestamp r.
Proof.
  unfold ThinkingPanel.convertHttpResponseToMessage.
  destruct (MessageHttpResponse.thinking_process r) as [text|]; [|by eexists].
  destruct (truthy text); [|by eexists].
  destruct (JSON_parse text) as [v|e]; [|by eexists].
  destruct v; by eexists.
Qed.

End ConvertFacts.

(** C5: when [thinking_process] is the JSON text of an array, the message
    returned carries the parsed array, in its order, as [thinkingProcess],
    and the [id], [sender], [content] and [timestamp] of the response.  The
    parser is any [JSON.parse] that rejects the empty text. *)
Theorem convert_parses_steps
    (JSON_parse : jsstring → result json)
    (r : MessageHttpResponse.t) (text : jsstring) (steps : list json) :
  completes (JSON_parse []) = false →
  MessageHttpResponse.thinking_process r = Some text →
  JSON_parse text = Ok (JArray steps) →
  ThinkingPanel.convertHttpResponseToMessage JSON_parse r
  = Ok {| Message.id := MessageHttpResponse.id r;
          Message.sender := MessageHttpResponse.sender r;
          Message.content := MessageHttpResponse.content r;
          Message.thinkingProcess := Some steps;
          Message.timestamp := MessageHttpResponse.timestamp r |}.
Proof.
  intros Hempty Hsome Hparse.
  rewrite (convert_array JSON_parse r text steps); [done| |done|done].
  destruct text; [|done]. by rewrite Hparse in Hempty.
Qed.

Lemma convert_parses_steps_witness :
  ThinkingPanel.convertHttpResponseToMessage JSONRef.JSON_parse stored_bot_message
  = Ok {| Message.id := lit "42";
          Message.sender := lit "bot";
          Message.content := lit "GBM is explained at 12:30.";
          Message.thinkingProcess :=
            Some [JObject [(lit "step", JNumber 1 0)];
                  JObject [(lit "step", JNumber 2 0)]];
          Message.timestamp := lit "2025-11-02 10:00:00" |}.
Proof.
  apply (convert_parses_steps JSONRef.JSON_parse stored_bot_message
           (lit "[{" ++ [34%N] ++ lit "step" ++ [34%N] ++ lit ":1}, {"
              ++ [34%N] ++ lit "step" ++ [34%N] ++ lit ":2}]")).
  - reflexivity.
  - reflexivity.
  - vm_compute. reflexivity.
Defined.

(** C9: the conversion completes with a message on every response, whatever
    the parser does; the [id], [sender], [content] and [timestamp] are those
    of the response, and [thinkingProcess] is absent when [thinking_process]
    is absent or empty, when parsing it throws, and when it parses to a value
    that is not an array. *)
Theorem convert_never_throws
    (JSON_parse : jsstring → result json) (r : MessageHttpResponse.t) :
  ∃ m : Message.t,
    ThinkingPanel.convertHttpResponseToMessage JSON_parse r = Ok m
    ∧ Message.id m = MessageHttpResponse.id r
    ∧ Message.sender m = MessageHttpResponse.sender r
    ∧ Message.content m = MessageHttpResponse.content r
    ∧ Message.timestamp m = MessageHttpResponse.timestamp r
    ∧ (MessageHttpResponse.thinking_process r = None →
       Message.thinkingProcess m = None)
    ∧ (MessageHttpResponse.thinking_process r = Some [] →
       Message.thinkingProcess m = None)
    ∧ (∀ text, MessageHttpResponse.thinking_process r = Some text →
       completes (JSON_parse text) = false →
       Message.thinkingProcess m = None)
    ∧ (∀ text v, MessageHttpResponse.thinking_process r = Some text →
       JSON_parse text = Ok v → isArray v = false →
       Message.thinkingProcess m = None).
Proof.
  destruct (convert_total JSON_parse r) as (m & Hm & Hid & Hsender & Hcontent & Hts).
  exists m. repeat split; try done.
  - intros Hnone. rewrite (convert_absent _ _ Hnone) in Hm. by simplify_eq.
  - intros Hsome. rewrite (convert_empty _ _ Hsome) in Hm. by simplify_eq.
  - intros text Hsome Hthrow.
    destruct (JSON_parse text) as [v|e] eqn:Hparse; [done|].
    rewrite (convert_throw _ _ _ _ Hsome Hparse) in Hm. by simplify_eq.
  - intros text v Hsome Hparse Harr.
    rewrite (convert_not_array _ _ _ _ Hsome Hparse Harr) in Hm. by simplify_eq.
Qed.

(** *** handleSend *)

Section SendFacts.
Import ChatPanel.

Lemma handleSend_guarded p clock s :
  send_guard p s = true → handleSend p clock s = (s, [], Ok None).
Proof.
  intros Hguard. unfold handleSend. run_comp. by rewrite Hguard.
Qed.

Lemma handleSend_started p clock s :
  send_guard p s = false →
  handleSend p clock s
  = ({| hoveredMessageId := hoveredMessageId s;
        messages := messages s ++ [optimistic_message s clock];
        inputText := [];
        isLoading := true |},
     [Fetch (send_request p (inputText s))],
     Ok (Some {| send_messages := messages s;
                 send_inputText := inputText s;
                 temp_user_message_id := temp_id clock;
                 send_timestamp := localeString clock |})).
Proof.
  intros Hguard. unfold handleSend. run_comp. by rewrite Hguard.
Qed.

(** The response replaces the list by one computed from the [messages] the
    handler was created with, whatever the list has become. *)
Lemma handleSend_settled_success k response botResponse clock s :
  ok response = true →
  response_json response = Ok botResponse →
  handleSend_settled k (Resolved response) clock s
  = ({| hoveredMessageId := hoveredMessageId s;
        messages :=
          filter (λ message, Message.id message ≠ temp_user_message_id k)
                 (send_messages k)
          ++ [userMessage (BotResponse.user_message_id botResponse)
                (send_inputText k) (send_timestamp k);
              botMessage botResponse clock];
        inputText := inputText s;
        isLoading := false |}, [], Ok ()).
Proof.
  intros Hok Hjson. unfold handleSend_settled. run_comp.
  by rewrite Hok, Hjson.
Qed.

(** A failure appends the error message to the list as it is by then. *)
Lemma handleSend_settled_failure k o clock s :
  request_failed o = true →
  handleSend_settled k o clock s
  = ({| hoveredMessageId := hoveredMessageId s;
        messages := messages s ++ [failed_message send_failed_content clock];
        inputText := inputText s;
        isLoading := false |}, [], Ok ()).
Proof.
  intros Hfailed. unfold handleSend_settled, request_failed in *. run_comp.
  destruct o as [response|reason]; [|done].
  destruct (ok response); [|done].
  by destruct (response_json response).
Qed.

Lemma ids_app l1 l2 : ids (l1 ++ l2) = ids l1 ++ ids l2.
Proof. apply fmap_app. Qed.

Lemma not_in_ids_filter id l :
  id ∉ ids (filter (λ message, Message.id message ≠ id) l).
Proof.
  intros (m & Hid & Hm)%list_elem_of_fmap.
  apply list_elem_of_filter in Hm as [Hne _]. by apply Hne.
Qed.

Lemma filter_fresh id l :
  id ∉ ids l → filter (λ message, Message.id message ≠ id) l = l.
Proof.
  induction l as [|m l IH]; [done|].
  intros [Hm Hl]%not_elem_of_cons.
  rewrite filter_cons_True by done. by rewrite IH.
Qed.

End SendFacts.

(** C1 as amended: for a send that passes the guard and whose request
    succeeds, the optimistic message is appended first, and the final list
    is the list before the send without the messages that carry the
    temporary identifier, followed by the user message under the server's
    identifier (same content and timestamp) and by the bot message.  When
    the temporary identifier is not in the list before the send and differs
    from the two identifiers of the response, the send is reconciled as the
    claim says. *)
Theorem send_success_reconciles
    (p : ChatPanel.Props) (s : ChatPanel.State) (clock : Clock)
    (response : Response BotResponse.t) (botResponse : BotResponse.t)
    (clock' : Clock) :
  ChatPanel.send_guard p s = false →
  ok response = true →
  response_json response = Ok botResponse →
  let started := ChatPanel.handleSend p clock s in
  ∃ k, completion_of started = Ok (Some k)
    ∧ ChatPanel.messages (state_of started)
      = ChatPanel.messages s ++ [optimistic_message s clock]
    ∧ (∀ s', ChatPanel.messages (state_of
               (ChatPanel.handleSend_settled k (Resolved response) clock' s'))
        = filter (λ message, Message.id message ≠ ChatPanel.temp_id clock)
                 (ChatPanel.messages s)
          ++ [ChatPanel.userMessage (BotResponse.user_message_id botResponse)
                (ChatPanel.inputText s) (localeString clock);
              ChatPanel.botMessage botResponse clock'])
    ∧ (ChatPanel.temp_id clock ∉ ids (ChatPanel.messages s) →
       BotResponse.user_message_id botResponse ≠ ChatPanel.temp_id clock →
       BotResponse.id botResponse ≠ ChatPanel.temp_id clock →
       reconciled p s clock response botResponse clock').
Proof.
  intros Hguard Hok Hjson started. subst started. unfold reconciled.
  rewrite (handleSend_started _ _ _ Hguard).
  eexists. split; [reflexivity|]. split; [reflexivity|]. split.
  - intros s'. by rewrite (handleSend_settled_success _ _ _ _ _ Hok Hjson).
  - intros Hfresh Huser Hbot.
    eexists. split; [reflexivity|]. split; [reflexivity|].
    rewrite (handleSend_settled_success _ _ _ _ _ Hok Hjson).
    unfold state_of; simpl. rewrite (filter_fresh _ _ Hfresh).
    split; [|done].
    rewrite ids_app. apply not_elem_of_app. split; [done|].
    simpl. intros Hin. apply elem_of_cons in Hin as [Heq|Hin]; [by apply Huser|].
    apply list_elem_of_singleton in Hin. by apply Hbot.
Qed.

Lemma send_success_reconciles_witness :
  reconciled sample_props
    (sample_state [sample_message (lit "m1") (lit "user") (lit "hello")]
                  (lit "When was GBM explained?"))
    (sample_clock 1762048800000)
    (ok_response (sample_botResponse (lit "m3") (lit "m2")))
    (sample_botResponse (lit "m3") (lit "m2"))
    (sample_clock 1762048801000).
Proof.
  destruct (send_success_reconciles sample_props
    (sample_state [sample_message (lit "m1") (lit "user") (lit "hello")]
                  (lit "When was GBM explained?"))
    (sample_clock 1762048800000)
    (ok_response (sample_botResponse (lit "m3") (lit "m2")))
    (sample_botResponse (lit "m3") (lit "m2"))
    (sample_clock 1762048801000)) as (k & _ & _ & _ & Hreconciled);
    [reflexivity|reflexivity|reflexivity|].
  apply Hreconciled.
  - by_evaluation.
  - by_evaluation.
  - by_evaluation.
Defined.

(** The claim C1 fails as it stands.  First send: the list already holds a
    message under the temporary identifier the clock yields (one left there
    by a send that failed at the same clock reading, or sent by the
    server); the response removes it, so the final list is not the list
    before the send followed by the two new messages.  Second send: the
    server names the user message by the very temporary identifier, which
    is then still in the final list. *)
Lemma send_success_not_reconciled :
  ¬ reconciled sample_props
      (sample_state
         [sample_message (lit "FAKEID-TEMP-MESSAGE1762048800000") (lit "user")
            (lit "hello")]
         (lit "When was GBM explained?"))
      (sample_clock 1762048800000)
      (ok_response (sample_botResponse (lit "m3") (lit "m2")))
      (sample_botResponse (lit "m3") (lit "m2"))
      (sample_clock 1762048801000)
  ∧ ¬ reconciled sample_props
      (sample_state [] (lit "When was GBM explained?"))
      (sample_clock 1762048800000)
      (ok_response (sample_botResponse (lit "m3")
                      (lit "FAKEID-TEMP-MESSAGE1762048800000")))
      (sample_botResponse (lit "m3") (lit "FAKEID-TEMP-MESSAGE1762048800000"))
      (sample_clock 1762048801000).
Proof.
  split.
  - intros (k & Hk & _ & _ & Hfinal).
    vm_compute in Hk. injection Hk as <-.
    vm_compute in Hfinal. discriminate Hfinal.
  - intros (k & Hk & _ & Hnotin & _).
    vm_compute in Hk. injection Hk as <-.
    apply Hnotin. by_evaluation.
Qed.

(** C2 as amended: for a send that passes the guard and whose request fails
    (rejected promise, error status or unreadable body), nothing is rolled
    back.  Whatever the state is when the request settles, the handler
    appends the synthetic bot message of the failure to the list as it is
    then and resets the loading flag; it removes no message, leaves the
    input and the hovered message as they are then, issues no request and
    completes.  In particular, when nothing else changed the state while
    the request was in flight, the final list is the list before the send
    followed by the optimistic message, still under its temporary
    identifier, and by the message of the failure, and the input stays
    cleared. *)
Theorem send_failure_keeps_optimistic_message
    (p : ChatPanel.Props) (s : ChatPanel.State) (clock : Clock)
    (o : fetch_outcome BotResponse.t) (clock' : Clock) :
  ChatPanel.send_guard p s = false →
  request_failed o = true →
  let started := ChatPanel.handleSend p clock s in
  ∃ k, completion_of started = Ok (Some k)
    ∧ (∀ s', let final := ChatPanel.handleSend_settled k o clock' s' in
         ChatPanel.messages (state_of final)
         = ChatPanel.messages s'
           ++ [ChatPanel.failed_message ChatPanel.send_failed_content clock']
         ∧ ChatPanel.inputText (state_of final) = ChatPanel.inputText s'
         ∧ ChatPanel.hoveredMessageId (state_of final)
           = ChatPanel.hoveredMessageId s'
         ∧ ChatPanel.isLoading (state_of final) = false
         ∧ effects_of final = []
         ∧ completion_of final = Ok ())
    ∧ synthetic (ChatPanel.failed_message ChatPanel.send_failed_content clock')
    ∧ (let final := ChatPanel.handleSend_settled k o clock' (state_of started) in
       ChatPanel.messages (state_of final)
       = ChatPanel.messages s
         ++ [optimistic_message s clock;
             ChatPanel.failed_message ChatPanel.send_failed_content clock']
       ∧ ChatPanel.inputText (state_of final) = []
       ∧ ChatPanel.isLoading (state_of final) = false
       ∧ effects_of final = []
       ∧ completion_of final = Ok ()).
Proof.
  intros Hguard Hfailed started. subst started.
  rewrite (handleSend_started _ _ _ Hguard).
  eexists. split; [reflexivity|]. split; [|split].
  - intros s'. by rewrite (handleSend_settled_failure _ _ _ _ Hfailed).
  - split; [done|].
    by exists (lit "MESSAGE-FAILED" ++ number_to_string (now clock')).
  - rewrite (handleSend_settled_failure _ _ _ _ Hfailed).
    unfold state_of, effects_of, completion_of; simpl.
    by rewrite <- app_assoc.
Qed.

Lemma send_failure_keeps_optimistic_message_witness :
  let s := sample_state [sample_message (lit "m1") (lit "user") (lit "hello")]
             (lit "When was GBM explained?") in
  let started := ChatPanel.handleSend sample_props (sample_clock 1762048800000) s in
  ∃ k, completion_of started = Ok (Some k)
    ∧ (let final := ChatPanel.handleSend_settled k (Resolved (error_response 500))
                      (sample_clock 1762048801000) (sample_state [] (lit "next")) in
       ChatPanel.messages (state_of final)
       = [ChatPanel.failed_message ChatPanel.send_failed_content
            (sample_clock 1762048801000)]
       ∧ ChatPanel.inputText (state_of final) = lit "next")
    ∧ (let final := ChatPanel.handleSend_settled k (Resolved (error_response 500))
                      (sample_clock 1762048801000) (state_of started) in
       ChatPanel.messages (state_of final)
       = ChatPanel.messages s
         ++ [optimistic_message s (sample_clock 1762048800000);
             ChatPanel.failed_message ChatPanel.send_failed_content
               (sample_clock 1762048801000)]
       ∧ ChatPanel.inputText (state_of final) = []
       ∧ ChatPanel.isLoading (state_of final) = false
       ∧ effects_of final = []
       ∧ completion_of final = Ok ()).
Proof.
  destruct (send_failure_keeps_optimistic_message sample_props
              (sample_state [sample_message (lit "m1") (lit "user") (lit "hello")]
                 (lit "When was GBM explained?"))
              (sample_clock 1762048800000) (Resolved (error_response 500))
              (sample_clock 1762048801000))
    as (k & Hk & Hany & _ & Hdirect); [reflexivity|reflexivity|].
  exists k. split; [exact Hk|]. split; [|exact Hdirect].
  destruct (Hany (sample_state [] (lit "next"))) as (Hmessages & Hinput & _).
  split; [exact Hmessages|exact Hinput].
Defined.

(** The claim C2 fails as it stands: after a send whose request is rejected,
    the optimistic message is still in the list. *)
Lemma send_failure_not_rolled_back :
  ¬ rolled_back sample_props
      (sample_state [sample_message (lit "m1") (lit "user") (lit "hello")]
         (lit "When was GBM explained?"))
      (sample_clock 1762048800000)
      (Rejected network_error)
      (sample_clock 1762048801000).
Proof.
  intros (k & Hk & Hgone).
  rewrite handleSend_started in Hk, Hgone by reflexivity.
  injection Hk as <-.
  rewrite handleSend_settled_failure in Hgone by reflexivity.
  apply Hgone. unfold state_of. cbn [fst snd ChatPanel.messages].
  apply elem_of_app. left. apply elem_of_app. right. constructor.
Qed.

(** *** handleDeleteChat *)

Section DeleteChatFacts.
Import ChatPage.

Lemma handleDeleteChat_current closure chatId s :
  closure = Some chatId →
  handleDeleteChat closure chatId s
  = ({| backendStatus := backendStatus s; isSidebarOpen := isSidebarOpen s;
        currentModel := currentModel s; currentChatId := None;
        availableChats :=
          filter (λ chat, ChatSession.id chat ≠ chatId) (availableChats s) |},
     [Navigate (lit "/")], Ok ()).
Proof.
  intros Hcurrent. unfold handleDeleteChat. run_comp.
  by rewrite bool_decide_eq_true_2.
Qed.

Lemma handleDeleteChat_other closure chatId s :
  closure ≠ Some chatId →
  handleDeleteChat closure chatId s
  = ({| backendStatus := backendStatus s; isSidebarOpen := isSidebarOpen s;
        currentModel := currentModel s; currentChatId := currentChatId s;
        availableChats :=
          filter (λ chat, ChatSession.id chat ≠ chatId) (availableChats s) |},
     [], Ok ()).
Proof.
  intros Hother. unfold handleDeleteChat. run_comp.
  by rewrite bool_decide_eq_false_2.
Qed.

Lemma availableChats_handleDeleteChat closure chatId s :
  availableChats (state_of (handleDeleteChat closure chatId s))
  = filter (λ chat, ChatSession.id chat ≠ chatId) (availableChats s).
Proof.
  destruct (decide (closure = Some chatId)) as [Hcurrent|Hother].
  - by rewrite handleDeleteChat_current.
  - by rewrite handleDeleteChat_other.
Qed.


End DeleteChatFacts.




(** *** The sections of a lecture *)

Lemma fetchSections_settled_resolved response s :
  LectureSections.fetchSections_settled (Resolved response) s
  = ({| LectureSections.sections := Some LectureSections.mock_data;
        LectureSections.loading := false |}, [], Ok ()).
Proof. reflexivity. Qed.

(** When the promise is rejected nothing changes: the list stays as it was
    and the spinner keeps spinning. *)
Lemma fetchSections_settled_rejected reason s :
  LectureSections.fetchSections_settled (Rejected reason) s = (s, [], Ok ()).
Proof. reflexivity. Qed.

Lemma fetchSections_run videoId s :
  LectureSections.fetchSections videoId s
  = (s, [Fetch (LectureSections.sections_request videoId)], Ok ()).
Proof. reflexivity. Qed.

(** C8: the sections shown depend neither on the video nor on the response:
    for two runs of the effect, with any [videoId]s, any responses, of
    whatever status and body, and any earlier states, the sections are the
    same list of four fixed entries. *)
Theorem sections_are_the_fixed_list
    (videoId1 videoId2 : option jsstring)
    (response1 response2 : Response (list Section_.t))
    (s1 s2 : LectureSections.State) :
  let run videoId response s :=
    state_of (LectureSections.fetchSections_settled (Resolved response)
                (state_of (LectureSections.fetchSections videoId s))) in
  LectureSections.sections (run videoId1 response1 s1)
  = LectureSections.sections (run videoId2 response2 s2)
  ∧ LectureSections.sections (run videoId1 response1 s1)
    = Some LectureSections.mock_data
  ∧ LectureSections.dataSource (run videoId1 response1 s1)
    = LectureSections.mock_data
  ∧ length LectureSections.mock_data = 4%nat
  ∧ Section_.text <$> LectureSections.mock_data
    = [lit "Introduction to the lecture and overview of topics.";
       lit "Deep dive into the first topic with examples.";
       lit "Discussion on advanced concepts and applications.";
       lit "Summary and conclusion of the lecture."].
Proof.
  intros run. subst run. cbv beta.
  rewrite !fetchSections_run. unfold state_of at 2 4 6. cbn [fst snd].
  rewrite !fetchSections_settled_resolved. by repeat split.
Qed.

(** *** Failed requests *)

Section FailureFacts.
Import ChatPanel.

Lemma failed_message_synthetic content clock :
  synthetic (failed_message content clock).
Proof.
  split; [done|].
  by exists (lit "MESSAGE-FAILED" ++ number_to_string (now clock)).
Qed.

Lemma convert_all_completes JSON_parse all_messages :
  ∃ data, convert_all JSON_parse all_messages = Ok data
          ∧ ids data = MessageHttpResponse.id <$> all_messages.
Proof.
  unfold convert_all.
  induction all_messages as [|r l (data & Hdata & Hids)]; [by exists []|].
  destruct (convert_total JSON_parse r) as (m & Hm & Hid & _).
  exists (m :: data). split.
  - change (mapM ?f (r :: l)) with (y ← f r; k ← mapM f l; mret (y :: k)).
    by rewrite Hm, Hdata.
  - cbn. by rewrite Hid, <- Hids.
Qed.

Lemma fetchMessages_settled_success JSON_parse response all_messages clock s :
  ok response = true →
  response_json response = Ok all_messages →
  ∃ data, convert_all JSON_parse all_messages = Ok data
    ∧ fetchMessages_settled JSON_parse (Resolved response) clock s
      = (setMessages (λ _, data) s, [], Ok ()).
Proof.
  intros Hok Hjson.
  destruct (convert_all_completes JSON_parse all_messages) as (data & Hdata & _).
  exists data. split; [done|].
  unfold fetchMessages_settled. run_comp. by rewrite Hok, Hjson, Hdata.
Qed.

Lemma fetchMessages_settled_failure JSON_parse o clock s :
  request_failed o = true →
  fetchMessages_settled JSON_parse o clock s
  = (setMessages (λ _, [failed_message fetch_failed_content clock]) s,
     match o with
     | Resolved response => if ok response then [] else [LocationHref (lit "/")]
     | Rejected _ => []
     end, Ok ()).
Proof.
  intros Hfailed. unfold fetchMessages_settled, request_failed in *. run_comp.
  destruct o as [response|reason]; [|done].
  destruct (ok response); [|done].
  by destruct (response_json response).
Qed.

Lemma handleDeleteMessageClick_settled_success k response s :
  ok response = true →
  handleDeleteMessageClick_settled k (Resolved response) s
  = (setMessages (λ _,
       filter (λ msg, Message.id msg ≠ delete_messageId k) (delete_messages k)) s,
     [], Ok ()).
Proof.
  intros Hok. unfold handleDeleteMessageClick_settled. run_comp.
  by rewrite Hok.
Qed.

Lemma handleDeleteMessageClick_settled_failure k o s :
  http_failed o = true →
  handleDeleteMessageClick_settled k o s
  = (s, [Alert (lit "Failed to delete message. Please try again.")], Ok ()).
Proof.
  intros Hfailed. unfold handleDeleteMessageClick_settled, http_failed in *.
  run_comp. destruct o as [response|reason]; [|done].
  by destruct (ok response).
Qed.

Lemma handleDeleteClick_settled_failure {S} (onDeleteChat : jsstring → comp S ())
    chatId o (s : S) :
  http_failed o = true →
  Sidebar.handleDeleteClick_settled onDeleteChat chatId o s
  = (s, [Alert (lit "Failed to delete chat. Please try again.")], Ok ()).
Proof.
  intros Hfailed. unfold Sidebar.handleDeleteClick_settled, http_failed in *.
  run_comp. destruct o as [response|reason]; [|done].
  by destruct (ok response).
Qed.

End FailureFacts.

(** C4 as amended: a failed request is caught in its handler, which
    completes and issues no further request.  A failed send appends one
    synthetic bot message to the list; a failed deletion of a chat or of a
    message raises one alert and changes no state.  A failed fetch of the
    messages does not append: it replaces the list by one synthetic bot
    message, and its only effect is to set the location to the home route,
    which it does exactly when the request was answered with an error
    status (not when the promise was rejected or the body of a good answer
    could not be read); the input and the loading flag stay as they
    were. *)
Theorem failures_are_shown_and_not_retried :
  (∀ JSON_parse (o : fetch_outcome (list MessageHttpResponse.t)) clock s,
     request_failed o = true →
     let run := ChatPanel.fetchMessages_settled JSON_parse o clock s in
     completion_of run = Ok ()
     ∧ requests (effects_of run) = []
     ∧ (∀ text, Alert text ∉ effects_of run)
     ∧ ChatPanel.messages (state_of run)
       = [ChatPanel.failed_message ChatPanel.fetch_failed_content clock]
     ∧ synthetic (ChatPanel.failed_message ChatPanel.fetch_failed_content clock)
     ∧ effects_of run
       = match o with
         | Resolved response =>
             if ok response then [] else [LocationHref (lit "/")]
         | Rejected _ => []
         end
     ∧ ChatPanel.inputText (state_of run) = ChatPanel.inputText s
     ∧ ChatPanel.isLoading (state_of run) = ChatPanel.isLoading s)
  ∧ (∀ k (o : fetch_outcome BotResponse.t) clock s,
     request_failed o = true →
     failure_handled ChatPanel.messages s (ChatPanel.handleSend_settled k o clock s)
     ∧ ChatPanel.messages (state_of (ChatPanel.handleSend_settled k o clock s))
       = ChatPanel.messages s
         ++ [ChatPanel.failed_message ChatPanel.send_failed_content clock])
  ∧ (∀ (onDeleteChat : jsstring → comp ChatPage.State ()) chatId
       (o : fetch_outcome ()) s,
     http_failed o = true →
     Sidebar.handleDeleteClick_settled onDeleteChat chatId o s
     = (s, [Alert (lit "Failed to delete chat. Please try again.")], Ok ()))
  ∧ (∀ k (o : fetch_outcome ()) s,
     http_failed o = true →
     failure_handled ChatPanel.messages s
       (ChatPanel.handleDeleteMessageClick_settled k o s)
     ∧ ChatPanel.handleDeleteMessageClick_settled k o s
       = (s, [Alert (lit "Failed to delete message. Please try again.")], Ok ())).
Proof.
  split; [|split; [|split]].
  - intros JSON_parse o clock s Hfailed run. subst run.
    rewrite (fetchMessages_settled_failure _ _ _ _ Hfailed).
    unfold completion_of, effects_of, state_of; simpl.
    split; [done|]. split; [|split; [|split; [|split; [|done]]]].
    + destruct o as [response|reason]; [by destruct (ok response)|done].
    + intros text Hin. destruct o as [response|reason];
        [destruct (ok response)|]; simpl in Hin.
      * by apply elem_of_nil in Hin.
      * apply list_elem_of_singleton in Hin. discriminate.
      * by apply elem_of_nil in Hin.
    + done.
    + apply failed_message_synthetic.
  - intros k o clock s Hfailed.
    rewrite (handleSend_settled_failure _ _ _ _ Hfailed).
    split; [|done]. split; [done|]. split; [|done].
    left. eexists. split; [apply failed_message_synthetic|reflexivity].
  - intros onDeleteChat chatId o s Hfailed.
    by apply handleDeleteClick_settled_failure.
  - intros k o s Hfailed.
    rewrite (handleDeleteMessageClick_settled_failure _ _ _ Hfailed).
    split; [|done]. split; [done|]. split; [|done].
    right. eexists. apply list_elem_of_singleton. reflexivity.
Qed.

Lemma failures_are_shown_and_not_retried_witness :
  failure_handled ChatPanel.messages
    (sample_state [sample_message (lit "m1") (lit "user") (lit "hello")] [])
    (ChatPanel.handleSend_settled sample_closure (Resolved (error_response 500))
       (sample_clock 1762048801000)
       (sample_state [sample_message (lit "m1") (lit "user") (lit "hello")] []))
  ∧ failure_handled ChatPanel.messages
      (sample_state [sample_message (lit "m1") (lit "user") (lit "hello")] [])
      (ChatPanel.handleDeleteMessageClick_settled
         {| ChatPanel.delete_messages :=
              [sample_message (lit "m1") (lit "user") (lit "hello")];
            ChatPanel.delete_messageId := lit "m1" |}
         (Rejected network_error)
         (sample_state [sample_message (lit "m1") (lit "user") (lit "hello")] [])).
Proof.
  destruct failures_are_shown_and_not_retried as (_ & Hsend & _ & Hdelete).
  split.
  - apply Hsend. reflexivity.
  - apply Hdelete. reflexivity.
Defined.

(** The claim C4 fails as it stands: when the fetch of the messages of a
    newly selected chat is rejected while the list still shows a message,
    the failure is shown neither by appending to that list nor by an
    alert: the message shown before is gone. *)
Lemma fetch_failure_not_appended :
  let s := sample_state [sample_message (lit "m1") (lit "user") (lit "hello")] [] in
  ¬ failure_handled ChatPanel.messages s
      (ChatPanel.fetchMessages_settled JSONRef.JSON_parse
         (Rejected network_error) (sample_clock 1762048800000) s).
Proof.
  intros s (_ & [(m & _ & Happended)|(text & Halert)] & _).
  - vm_compute in Happended. discriminate Happended.
  - vm_compute in Halert. by apply elem_of_nil in Halert.
Qed.

(** *** Uniqueness of the identifiers in the list *)

Section UniqueFacts.
Import ChatPanel.

Lemma ids_filter_subseteq (P : Message.t → Prop) `{∀ m, Decision (P m)} l id :
  id ∈ ids (filter P l) → id ∈ ids l.
Proof.
  intros (m & -> & Hm)%list_elem_of_fmap.
  apply list_elem_of_filter in Hm as [_ Hm].
  by apply list_elem_of_fmap_2.
Qed.

Lemma unique_ids_filter (P : Message.t → Prop) `{∀ m, Decision (P m)} l :
  unique_ids l → unique_ids (filter P l).
Proof.
  unfold unique_ids, ids. induction l as [|m l IH]; [done|].
  rewrite fmap_cons. intros [Hm Hl]%NoDup_cons.
  destruct (decide (P m)) as [HP|HP].
  - rewrite filter_cons_True by done. rewrite fmap_cons.
    apply NoDup_cons. split; [|by apply IH].
    intros Hin. by apply Hm, (ids_filter_subseteq P).
  - rewrite filter_cons_False by done. by apply IH.
Qed.

Lemma unique_ids_snoc l m :
  unique_ids l → Message.id m ∉ ids l → unique_ids (l ++ [m]).
Proof.
  unfold unique_ids. intros Hl Hm. rewrite ids_app.
  apply NoDup_app. split; [done|]. split; [|apply NoDup_singleton].
  intros id Hid ->%list_elem_of_singleton. by apply Hm.
Qed.

Lemma handleDeleteMessageClick_run messageId s :
  handleDeleteMessageClick messageId s
  = (s, [StopPropagation; Fetch (deleteMessage_request messageId)],
     Ok {| delete_messages := messages s; delete_messageId := messageId |}).
Proof. reflexivity. Qed.

End UniqueFacts.

(** C3 as amended.  A successful deletion replaces the list by the list
    its button was rendered with, filtered; a failed one leaves the list as
    it is.  So deleting a message keeps the identifiers unique when they
    were unique in the list the button was rendered with, which is the
    current list when nothing changed it since.  The optimistic append
    keeps them unique when the temporary identifier is not in the list yet.
    The reconciliation builds the new list from the list the send was
    started on: its identifiers are unique when they were in that list and
    the two identifiers of the response are not in it and differ from each
    other.  The append of the error message keeps them unique when the
    identifier of that message is not in the list yet.  A fetch gives the
    list the identifiers of the server's answer, in its order; a failed
    fetch leaves the message of the failure alone in the list, and a change
    to no chat an empty list.  The request of a send is the same whatever
    the clock reads, so it does not carry the temporary identifier; the
    request of a deletion is a DELETE of [/api/message/] followed by the
    identifier it is given, whatever that is. *)
Theorem message_ids_unique_when_fresh :
  (∀ k (o : fetch_outcome ()) s,
     unique_ids (ChatPanel.delete_messages k) →
     preserves_unique_ids (ChatPanel.messages s)
       (ChatPanel.messages (state_of (ChatPanel.handleDeleteMessageClick_settled k o s))))
  ∧ (∀ messageId (o : fetch_outcome ()) s,
     let clicked := ChatPanel.handleDeleteMessageClick messageId s in
     ∃ k, completion_of clicked = Ok k
       ∧ state_of clicked = s
       ∧ preserves_unique_ids (ChatPanel.messages s)
           (ChatPanel.messages (state_of
              (ChatPanel.handleDeleteMessageClick_settled k o (state_of clicked))))
       ∧ (∀ s', unique_ids (ChatPanel.messages s) →
            preserves_unique_ids (ChatPanel.messages s')
              (ChatPanel.messages (state_of
                 (ChatPanel.handleDeleteMessageClick_settled k o s'))))
       ∧ (∀ s', http_failed o = false →
            ChatPanel.messages (state_of
              (ChatPanel.handleDeleteMessageClick_settled k o s'))
            = filter (λ msg, Message.id msg ≠ messageId) (ChatPanel.messages s))
       ∧ (∀ s', http_failed o = true →
            ChatPanel.messages (state_of
              (ChatPanel.handleDeleteMessageClick_settled k o s'))
            = ChatPanel.messages s'))
  ∧ (∀ p clock s,
     ChatPanel.temp_id clock ∉ ids (ChatPanel.messages s) →
     preserves_unique_ids (ChatPanel.messages s)
       (ChatPanel.messages (state_of (ChatPanel.handleSend p clock s))))
  ∧ (∀ k response botResponse clock s,
     ok response = true →
     response_json response = Ok botResponse →
     BotResponse.user_message_id botResponse ∉ ids (ChatPanel.send_messages k) →
     BotResponse.id botResponse ∉ ids (ChatPanel.send_messages k) →
     BotResponse.user_message_id botResponse ≠ BotResponse.id botResponse →
     preserves_unique_ids (ChatPanel.send_messages k)
       (ChatPanel.messages (state_of
          (ChatPanel.handleSend_settled k (Resolved response) clock s))))
  ∧ (∀ k (o : fetch_outcome BotResponse.t) clock s,
     request_failed o = true →
     Message.id (ChatPanel.failed_message ChatPanel.send_failed_content clock)
       ∉ ids (ChatPanel.messages s) →
     preserves_unique_ids (ChatPanel.messages s)
       (ChatPanel.messages (state_of (ChatPanel.handleSend_settled k o clock s))))
  ∧ (∀ JSON_parse response all_messages clock s,
     ok response = true →
     response_json response = Ok all_messages →
     ids (ChatPanel.messages (state_of
            (ChatPanel.fetchMessages_settled JSON_parse (Resolved response) clock s)))
     = MessageHttpResponse.id <$> all_messages)
  ∧ (∀ JSON_parse (o : fetch_outcome (list MessageHttpResponse.t)) clock s,
     request_failed o = true →
     ChatPanel.messages (state_of
       (ChatPanel.fetchMessages_settled JSON_parse o clock s))
     = [ChatPanel.failed_message ChatPanel.fetch_failed_content clock]
     ∧ unique_ids (ChatPanel.messages (state_of
                     (ChatPanel.fetchMessages_settled JSON_parse o clock s))))
  ∧ (∀ p s,
     ChatPanel.currentChatId p = None →
     ChatPanel.messages (state_of (ChatPanel.fetchMessages_effect p s)) = [])
  ∧ (∀ p clock clock' s,
     requests (effects_of (ChatPanel.handleSend p clock s))
     = requests (effects_of (ChatPanel.handleSend p clock' s)))
  ∧ (∀ messageId s,
     requests (effects_of (ChatPanel.handleDeleteMessageClick messageId s))
     = [ChatPanel.deleteMessage_request messageId]
     ∧ ChatPanel.deleteMessage_request messageId
       = {| method := DELETE;
            url := API_PREFIX ++ lit "/api/message/" ++ messageId;
            headers := []; body := None |}
     ∧ occurs_in messageId (ChatPanel.deleteMessage_request messageId)).
Proof.
  assert (Hdeletion : ∀ k (o : fetch_outcome ()) s,
     unique_ids (ChatPanel.delete_messages k) →
     preserves_unique_ids (ChatPanel.messages s)
       (ChatPanel.messages (state_of (ChatPanel.handleDeleteMessageClick_settled k o s)))).
  { intros k o s Hclosure Hunique.
    destruct (http_failed o) eqn:Hfailed.
    + by rewrite (handleDeleteMessageClick_settled_failure _ _ _ Hfailed).
    + destruct o as [response|reason]; [|done].
      apply negb_false_iff in Hfailed.
      rewrite (handleDeleteMessageClick_settled_success _ _ _ Hfailed).
      by apply unique_ids_filter. }
  repeat apply conj.
  - exact Hdeletion.
  - intros messageId o s clicked. subst clicked.
    rewrite handleDeleteMessageClick_run.
    eexists. split; [reflexivity|]. split; [reflexivity|].
    unfold state_of at 2. cbn [fst snd].
    split; [|split; [|split]].
    + intros Hunique. by apply Hdeletion.
    + intros s' Hunique. by apply Hdeletion.
    + intros s' Hfailed. destruct o as [response|reason]; [|done].
      apply negb_false_iff in Hfailed.
      by rewrite (handleDeleteMessageClick_settled_success _ _ _ Hfailed).
    + intros s' Hfailed.
      by rewrite (handleDeleteMessageClick_settled_failure _ _ _ Hfailed).
  - intros p clock s Hfresh Hunique.
    destruct (ChatPanel.send_guard p s) eqn:Hguard.
    + by rewrite (handleSend_guarded _ _ _ Hguard).
    + rewrite (handleSend_started _ _ _ Hguard).
      by apply unique_ids_snoc.
  - intros k response botResponse clock s Hok Hjson Huser Hbot Hne Hunique.
    rewrite (handleSend_settled_success _ _ _ _ _ Hok Hjson).
    unfold state_of; simpl.
    change [?a; ?b] with ([a] ++ [b]). rewrite app_assoc.
    apply unique_ids_snoc; [apply unique_ids_snoc|].
    + by apply unique_ids_filter.
    + intros Hin. by apply Huser, (ids_filter_subseteq _ _ _ Hin).
    + rewrite ids_app. apply not_elem_of_app. split.
      * intros Hin. by apply Hbot, (ids_filter_subseteq _ _ _ Hin).
      * intros Hin%list_elem_of_singleton. by apply Hne.
  - intros k o clock s Hfailed Hfresh Hunique.
    rewrite (handleSend_settled_failure _ _ _ _ Hfailed).
    by apply unique_ids_snoc.
  - intros JSON_parse response all_messages clock s Hok Hjson.
    destruct (fetchMessages_settled_success JSON_parse _ _ clock s Hok Hjson)
      as (data & Hdata & ->).
    destruct (convert_all_completes JSON_parse all_messages) as (data' & Hdata' & Hids).
    rewrite Hdata in Hdata'. injection Hdata' as <-. exact Hids.
  - intros JSON_parse o clock s Hfailed.
    rewrite (fetchMessages_settled_failure _ _ _ _ Hfailed).
    split; [done|]. apply NoDup_singleton.
  - intros p s Hnone. unfold ChatPanel.fetchMessages_effect. by rewrite Hnone.
  - intros p clock clock' s.
    destruct (ChatPanel.send_guard p s) eqn:Hguard.
    + by rewrite !(handleSend_guarded _ _ _ Hguard).
    + by rewrite !(handleSend_started _ _ _ Hguard).
  - intros messageId s. split; [reflexivity|]. split; [reflexivity|].
    exists (API_PREFIX ++ lit "/api/message/"), [].
    unfold ChatPanel.deleteMessage_request; simpl url.
    by rewrite app_nil_r, <- app_assoc.
Qed.

Lemma message_ids_unique_when_fresh_witness :
  unique_ids
    (ChatPanel.messages (state_of
       (ChatPanel.handleSend_settled sample_closure
          (Resolved (ok_response (sample_botResponse (lit "m3") (lit "m2"))))
          (sample_clock 1762048801000)
          (sample_state [] [])))).
Proof.
  destruct message_ids_unique_when_fresh as (_ & _ & _ & Hreconciliation & _).
  apply (Hreconciliation sample_closure
           (ok_response (sample_botResponse (lit "m3") (lit "m2")))
           (sample_botResponse (lit "m3") (lit "m2"))).
  - reflexivity.
  - reflexivity.
  - by_evaluation.
  - by_evaluation.
  - by_evaluation.
  - unfold unique_ids. by_evaluation.
Defined.

(** The claim C3 fails as it stands.  After a failed fetch the list holds
    the synthetic message, whose delete button sends its [FAKEID-]
    identifier to the backend.  An optimistic append under an identifier
    that is already in the list, a fetch whose answer repeats an identifier,
    and a second send that the server answers with the identifiers of the
    first, leave a list with a repeated identifier. *)
Lemma temporary_id_reaches_backend :
  let failed :=
    state_of (ChatPanel.fetchMessages_settled JSONRef.JSON_parse
                (Rejected network_error) (sample_clock 1762048800000)
                (sample_state [] [])) in
  let collision :=
    sample_state
      [sample_message (lit "FAKEID-TEMP-MESSAGE1762048800000") (lit "user")
         (lit "hello")]
      (lit "When was GBM explained?") in
  let answered :=
    {| ChatPanel.send_messages :=
         [sample_message (lit "m2") (lit "user") (lit "hello");
          sample_message (lit "m3") (lit "bot") (lit "Hi!")];
       ChatPanel.send_inputText := lit "When was GBM explained?";
       ChatPanel.temp_user_message_id :=
         ChatPanel.temp_id (sample_clock 1762048800000);
       ChatPanel.send_timestamp := localeString (sample_clock 1762048800000) |} in
  (ids (ChatPanel.messages failed) = [lit "FAKEID-MESSAGE-FAILED1762048800000"]
   ∧ ¬ temporary_ids_stay_local
         (effects_of (ChatPanel.handleDeleteMessageClick
                        (lit "FAKEID-MESSAGE-FAILED1762048800000") failed)))
  ∧ ¬ preserves_unique_ids (ChatPanel.messages collision)
        (ChatPanel.messages (state_of
           (ChatPanel.handleSend sample_props (sample_clock 1762048800000)
              collision)))
  ∧ ¬ preserves_unique_ids []
        (ChatPanel.messages (state_of
           (ChatPanel.fetchMessages_settled JSONRef.JSON_parse
              (Resolved (ok_response [sample_stored (lit "m1");
                                      sample_stored (lit "m1")]))
              (sample_clock 1762048800000) (sample_state [] []))))
  ∧ ¬ preserves_unique_ids (ChatPanel.send_messages answered)
        (ChatPanel.messages (state_of
           (ChatPanel.handleSend_settled answered
              (Resolved (ok_response (sample_botResponse (lit "m3") (lit "m2"))))
              (sample_clock 1762048801000) (sample_state [] [])))).
Proof.
  intros failed collision answered. split; [split|split; [|split]].
  - reflexivity.
  - intros Hlocal.
    apply (Hlocal (ChatPanel.deleteMessage_request
                     (lit "FAKEID-MESSAGE-FAILED1762048800000"))
                  (lit "FAKEID-MESSAGE-FAILED1762048800000")).
    + apply list_elem_of_singleton. reflexivity.
    + by exists (lit "MESSAGE-FAILED1762048800000").
    + by exists (API_PREFIX ++ lit "/api/message/"), [].
  - unfold preserves_unique_ids, unique_ids. by_evaluation.
  - unfold preserves_unique_ids, unique_ids. by_evaluation.
  - unfold preserves_unique_ids, unique_ids. by_evaluation.
Qed.

(** *** Requests per trigger *)

Section GuardFacts.

Lemma trimStart_blank s : blank s → trimStart s = [].
Proof.
  induction 1 as [|c s Hc _ IH]; [done|]. simpl. by rewrite Hc.
Qed.

Lemma trimStart_head s :
  trimStart s = [] ∨ ∃ c s', trimStart s = c :: s' ∧ is_whitespace c = false.
Proof.
  induction s as [|c s IH]; [by left|].
  simpl. destruct (is_whitespace c) eqn:Hc; [done|]. right. by exists c, s.
Qed.

Lemma trimStart_nil s : trimStart s = [] → blank s.
Proof.
  induction s as [|c s IH]; [by constructor|].
  simpl. destruct (is_whitespace c) eqn:Hc; [|done].
  intros Hs. constructor; [done|by apply IH].
Qed.

Lemma trim_nil s : trim s = [] ↔ blank s.
Proof.
  unfold trim, trimEnd. split.
  - intros Hnil. apply trimStart_nil.
    destruct (trimStart_head s) as [Hs|(c & s' & Hs & Hc)]; [done|].
    apply (f_equal (@rev N)) in Hnil. rewrite rev_involutive in Hnil.
    simpl in Hnil.
    apply trimStart_nil in Hnil.
    assert (Hin : c ∈ rev (trimStart s)).
    { rewrite Hs. apply list_elem_of_In, in_rev. rewrite rev_involutive.
      by left. }
    unfold blank in Hnil. rewrite Forall_forall in Hnil.
    specialize (Hnil c Hin). congruence.
  - intros Hblank. by rewrite (trimStart_blank _ Hblank).
Qed.

Lemma send_guard_true p s :
  ChatPanel.send_guard p s = true
  ↔ blank (ChatPanel.inputText s)
    ∨ ChatPanel.currentChatId p = None
    ∨ ChatPanel.currentChatId p = Some []
    ∨ ChatPanel.isLoading s = true.
Proof.
  unfold ChatPanel.send_guard. rewrite !orb_true_iff, !negb_true_iff.
  rewrite <- trim_nil.
  assert (Htruthy : ∀ x, truthy x = false ↔ x = []) by (by intros []).
  rewrite Htruthy.
  assert (Hchat : truthy_opt (ChatPanel.currentChatId p) = false
            ↔ ChatPanel.currentChatId p = None
              ∨ ChatPanel.currentChatId p = Some []).
  { destruct (ChatPanel.currentChatId p) as [[|c chatId]|]; simpl.
    - split; [by right|done].
    - split; [done|by intros [?|?]].
    - split; [by left|done]. }
  rewrite Hchat. tauto.
Qed.


End GuardFacts.




(** *** Seeking from the section and transcript lists *)

(** Clicking an item of either list leaves the list's own state alone: all
    it does is what the callback does. *)
Lemma jumpVideoTime_run (time : number) (s : LectureVideoAnalysis.State) :
  LectureVideoAnalysis.jumpVideoTime time s
  = (LectureVideoAnalysis.seek_and_play time s, [], Ok ()).
Proof. reflexivity. Qed.

(** C10: clicking a section item calls the seek callback with
    [begin_time / 1000], the conversion the transcript list applies to its
    millisecond times; wired to [jumpVideoTime] it sets the current time of
    the video to [begin_time / 1000] seconds and starts playback, so the
    four sections shown, which begin at 0, 300, 900 and 1500, seek to 0, 0.3,
    0.9 and 1.5 seconds. *)
Theorem section_click_seeks_begin_time_over_1000 :
  (∀ S (handleItemClick : number → comp S ()) (section : Section_.t),
     LectureSections.onClick handleItemClick section
     = handleItemClick (Section_.begin_time section / 1000)%float)
  ∧ (∀ S (handleItemClick : number → comp S ()) (sentence : Sentence.t),
     LectureTranscripts.onClick handleItemClick sentence
     = handleItemClick (Sentence.begin_time sentence / 1000)%float)
  ∧ (∀ (section : Section_.t) (s : LectureVideoAnalysis.State),
     let after := LectureSections.onClick LectureVideoAnalysis.jumpVideoTime
                    section s in
     LectureVideoAnalysis.videoRef (state_of after)
     = (λ _, {| currentTime := (Section_.begin_time section / 1000)%float;
                paused := false |}) <$> LectureVideoAnalysis.videoRef s
     ∧ LectureVideoAnalysis.thumbnails (state_of after)
       = LectureVideoAnalysis.thumbnails s
     ∧ LectureVideoAnalysis.videoUrl (state_of after)
       = LectureVideoAnalysis.videoUrl s
     ∧ effects_of after = []
     ∧ completion_of after = Ok ())
  ∧ (λ section, (Section_.begin_time section / 1000)%float)
      <$> LectureSections.mock_data
    = [0; 0.3; 0.9; 1.5]%float.
Proof.
  split; [reflexivity|]. split; [reflexivity|]. split; [|reflexivity].
  intros section s after. subst after.
  unfold LectureSections.onClick. rewrite jumpVideoTime_run.
  unfold state_of, effects_of, completion_of; simpl.
  by destruct (LectureVideoAnalysis.videoRef s).
Qed.

(* ================================================================== *)
(** ** Further properties of the chat panel *)
(* ================================================================== *)

Section ChatPanelMore.
Import ChatPanel.

Lemma convert_all_Forall2 JSON_parse all_messages data :
  convert_all JSON_parse all_messages = Ok data →
  Forall2 (λ r m, ThinkingPanel.convertHttpResponseToMessage JSON_parse r = Ok m)
          all_messages data.
Proof.
  unfold convert_all. revert data.
  induction all_messages as [|r l IH]; intros data Hdata.
  - injection Hdata as <-. constructor.
  - change (mapM ?f (r :: l)) with (y ← f r; k ← mapM f l; mret (y :: k)) in Hdata.
    destruct (ThinkingPanel.convertHttpResponseToMessage JSON_parse r)
      as [m|e] eqn:Hm; [|done].
    destruct (mapM (ThinkingPanel.convertHttpResponseToMessage JSON_parse) l)
      as [k|e] eqn:Hk; [|done].
    injection Hdata as <-. constructor; [done|by apply IH].
Qed.

Lemma submit_disabled_guard p s :
  ChatPanelInput.submit_disabled p s = send_guard p s.
Proof.
  unfold ChatPanelInput.submit_disabled, send_guard.
  by destruct (isLoading s), (truthy (trim (inputText s))),
       (truthy_opt (currentChatId p)).
Qed.

Lemma handleSend_settled_isLoading k o clock s :
  isLoading (state_of (handleSend_settled k o clock s)) = false
  ∧ inputText (state_of (handleSend_settled k o clock s)) = inputText s
  ∧ hoveredMessageId (state_of (handleSend_settled k o clock s))
    = hoveredMessageId s
  ∧ completion_of (handleSend_settled k o clock s) = Ok ().
Proof.
  destruct (request_failed o) eqn:Hfailed.
  - by rewrite (handleSend_settled_failure _ _ _ _ Hfailed).
  - destruct o as [response|reason]; [|done]. simpl in Hfailed.
    apply orb_false_iff in Hfailed as [Hok Hjson].
    apply negb_false_iff in Hok.
    destruct (response_json response) as [botResponse|e] eqn:Hbody; [|done].
    by rewrite (handleSend_settled_success _ _ _ _ _ Hok Hbody).
Qed.

End ChatPanelMore.

(** X1: a converted message carries a thinking process only when the
    response held a non-empty text that the parser read as that array. *)
Theorem thinkingProcess_comes_from_an_array
    (JSON_parse : jsstring → result json) (r : MessageHttpResponse.t)
    (m : Message.t) (steps : list json) :
  ThinkingPanel.convertHttpResponseToMessage JSON_parse r = Ok m →
  Message.thinkingProcess m = Some steps →
  ∃ text, MessageHttpResponse.thinking_process r = Some text
          ∧ text ≠ []
          ∧ JSON_parse text = Ok (JArray steps).
Proof.
  unfold ThinkingPanel.convertHttpResponseToMessage. intros Hm Hsteps.
  destruct (MessageHttpResponse.thinking_process r) as [text|];
    [|by simplify_eq].
  exists text. split; [done|].
  destruct text as [|c text]; [by simplify_eq|]. split; [done|].
  simpl in Hm. destruct (JSON_parse (c :: text)) as [v|e]; [|by simplify_eq].
  destruct v; simplify_eq; simpl in Hsteps; by simplify_eq.
Qed.

Lemma thinkingProcess_comes_from_an_array_witness :
  ∃ text, MessageHttpResponse.thinking_process stored_bot_message = Some text
          ∧ text ≠ []
          ∧ JSONRef.JSON_parse text
            = Ok (JArray [JObject [(lit "step", JNumber 1 0)];
                          JObject [(lit "step", JNumber 2 0)]]).
Proof.
  apply (thinkingProcess_comes_from_an_array JSONRef.JSON_parse stored_bot_message
           {| Message.id := lit "42";
              Message.sender := lit "bot";
              Message.content := lit "GBM is explained at 12:30.";
              Message.thinkingProcess :=
                Some [JObject [(lit "step", JNumber 1 0)];
                      JObject [(lit "step", JNumber 2 0)]];
              Message.timestamp := lit "2025-11-02 10:00:00" |}).
  - vm_compute. reflexivity.
  - reflexivity.
Defined.

(** X2: a successful fetch shows the server's messages, one for one and in
    the server's order, each with the identifier, sender, content and
    timestamp it was sent with; nothing else of the panel changes and no
    effect is performed. *)
Theorem fetch_shows_the_server_messages
    (JSON_parse : jsstring → result json)
    (response : Response (list MessageHttpResponse.t))
    (all_messages : list MessageHttpResponse.t) (clock : Clock)
    (s : ChatPanel.State) :
  ok response = true →
  response_json response = Ok all_messages →
  let run := ChatPanel.fetchMessages_settled JSON_parse (Resolved response) clock s in
  Forall2 (λ r m, Message.id m = MessageHttpResponse.id r
                  ∧ Message.sender m = MessageHttpResponse.sender r
                  ∧ Message.content m = MessageHttpResponse.content r
                  ∧ Message.timestamp m = MessageHttpResponse.timestamp r)
          all_messages (ChatPanel.messages (state_of run))
  ∧ ChatPanel.inputText (state_of run) = ChatPanel.inputText s
  ∧ ChatPanel.isLoading (state_of run) = ChatPanel.isLoading s
  ∧ effects_of run = []
  ∧ completion_of run = Ok ().
Proof.
  intros Hok Hjson run. subst run.
  destruct (fetchMessages_settled_success JSON_parse _ _ clock s Hok Hjson)
    as (data & Hdata & ->).
  split; [|done]. unfold state_of; simpl.
  apply convert_all_Forall2 in Hdata.
  eapply Forall2_impl; [exact Hdata|].
  intros r m Hm. simpl in Hm.
  destruct (convert_total JSON_parse r) as (m' & Hm' & Hfields).
  rewrite Hm in Hm'. by injection Hm' as <-.
Qed.

Lemma fetch_shows_the_server_messages_witness :
  let run := ChatPanel.fetchMessages_settled JSONRef.JSON_parse
               (Resolved (ok_response [stored_bot_message; sample_stored (lit "m1")]))
               (sample_clock 1762048800000) (sample_state [] []) in
  Forall2 (λ r m, Message.id m = MessageHttpResponse.id r
                  ∧ Message.sender m = MessageHttpResponse.sender r
                  ∧ Message.content m = MessageHttpResponse.content r
                  ∧ Message.timestamp m = MessageHttpResponse.timestamp r)
          [stored_bot_message; sample_stored (lit "m1")]
          (ChatPanel.messages (state_of run))
  ∧ ChatPanel.inputText (state_of run) = []
  ∧ ChatPanel.isLoading (state_of run) = false
  ∧ effects_of run = []
  ∧ completion_of run = Ok ().
Proof.
  apply (fetch_shows_the_server_messages JSONRef.JSON_parse
           (ok_response [stored_bot_message; sample_stored (lit "m1")])
           [stored_bot_message; sample_stored (lit "m1")]).
  - reflexivity.
  - reflexivity.
Defined.

(** X3: while a send is under way a further send does nothing, whatever the
    chat, the clock and the text typed in the meantime: the state stays as
    it is and no request is issued. *)
Theorem send_in_flight_blocks_sends
    (p p' : ChatPanel.Props) (clock clock' : Clock) (s : ChatPanel.State)
    (typed : jsstring) :
  ChatPanel.send_guard p s = false →
  let started := state_of (ChatPanel.handleSend p clock s) in
  let retyped := state_of (ChatPanelInput.handleInputChange typed started) in
  ChatPanel.handleSend p' clock' started = (started, [], Ok None)
  ∧ ChatPanel.handleSend p' clock' retyped = (retyped, [], Ok None)
  ∧ ChatPanel.messages retyped = ChatPanel.messages started.
Proof.
  intros Hguard started retyped. subst started retyped.
  rewrite (handleSend_started _ _ _ Hguard). unfold state_of; simpl.
  split; [|split; [|done]].
  - apply handleSend_guarded, send_guard_true. by do 3 right.
  - apply handleSend_guarded, send_guard_true. by do 3 right.
Qed.

Lemma send_in_flight_blocks_sends_witness :
  let s := sample_state [] (lit "When was GBM explained?") in
  let started := state_of (ChatPanel.handleSend sample_props
                             (sample_clock 1762048800000) s) in
  let retyped := state_of (ChatPanelInput.handleInputChange (lit "And SVM?")
                             started) in
  ChatPanel.handleSend sample_props (sample_clock 1762048800500) started
  = (started, [], Ok None)
  ∧ ChatPanel.handleSend sample_props (sample_clock 1762048800500) retyped
    = (retyped, [], Ok None)
  ∧ ChatPanel.messages retyped = ChatPanel.messages started.
Proof.
  apply (send_in_flight_blocks_sends sample_props sample_props
           (sample_clock 1762048800000) (sample_clock 1762048800500)
           (sample_state [] (lit "When was GBM explained?")) (lit "And SVM?")).
  reflexivity.
Defined.

(** X4: however the request of a send settles, the handler completes with
    the loading flag off, and leaves the text typed since and the hovered
    message alone, so that the next send can start. *)
Theorem settled_send_unlocks_the_panel
    (k : ChatPanel.SendClosure) (o : fetch_outcome BotResponse.t)
    (clock clock' : Clock) (p : ChatPanel.Props) (s : ChatPanel.State) :
  let settled := state_of (ChatPanel.handleSend_settled k o clock s) in
  ChatPanel.isLoading settled = false
  ∧ ChatPanel.inputText settled = ChatPanel.inputText s
  ∧ ChatPanel.hoveredMessageId settled = ChatPanel.hoveredMessageId s
  ∧ completion_of (ChatPanel.handleSend_settled k o clock s) = Ok ()
  ∧ (blank (ChatPanel.inputText s) ∨ ChatPanel.currentChatId p = None
       ∨ ChatPanel.currentChatId p = Some []
     ↔ ChatPanel.handleSend p clock' settled = (settled, [], Ok None)).
Proof.
  intros settled. subst settled.
  destruct (handleSend_settled_isLoading k o clock s) as (Hloading & Hinput & Hhover & Hdone).
  repeat (split; [done|]).
  set (settled := state_of (ChatPanel.handleSend_settled k o clock s)) in *.
  split.
  - intros Hguard. apply handleSend_guarded, send_guard_true.
    rewrite Hinput. tauto.
  - intros Hrun.
    destruct (ChatPanel.send_guard p settled) eqn:Hguard.
    + apply send_guard_true in Hguard. rewrite Hinput, Hloading in Hguard.
      destruct Hguard as [?|[?|[?|?]]]; auto. done.
    + rewrite (handleSend_started _ _ _ Hguard) in Hrun. discriminate Hrun.
Qed.

(** X5: two deletions clicked on the same list: when both succeed, the
    second answer replaces the list by the clicked list without the second
    message only, so the message deleted first is shown again. *)
Theorem second_delete_restores_the_first
    (a b : jsstring) (s : ChatPanel.State) (ka kb : ChatPanel.DeleteClosure)
    (response_a response_b : Response ()) :
  completion_of (ChatPanel.handleDeleteMessageClick a s) = Ok ka →
  completion_of (ChatPanel.handleDeleteMessageClick b
                   (state_of (ChatPanel.handleDeleteMessageClick a s))) = Ok kb →
  ok response_a = true →
  ok response_b = true →
  let first := state_of (ChatPanel.handleDeleteMessageClick_settled ka
                           (Resolved response_a) s) in
  let second := state_of (ChatPanel.handleDeleteMessageClick_settled kb
                            (Resolved response_b) first) in
  ChatPanel.messages first
  = filter (λ msg, Message.id msg ≠ a) (ChatPanel.messages s)
  ∧ ChatPanel.messages second
    = filter (λ msg, Message.id msg ≠ b) (ChatPanel.messages s)
  ∧ (a ≠ b → ∀ msg, msg ∈ ChatPanel.messages s → Message.id msg = a →
       (msg ∉ ChatPanel.messages first) ∧ msg ∈ ChatPanel.messages second).
Proof.
  intros Hka Hkb Hoka Hokb first second. subst first second.
  rewrite handleDeleteMessageClick_run in Hka, Hkb.
  injection Hka as <-. injection Hkb as <-.
  rewrite !handleDeleteMessageClick_settled_success by done.
  unfold state_of; simpl. split; [done|]. split; [done|].
  intros Hne msg Hin Hid. split.
  - intros [Hkeep _]%list_elem_of_filter. by apply Hkeep.
  - apply list_elem_of_filter. split; [congruence|done].
Qed.

Lemma second_delete_restores_the_first_witness :
  let s := sample_state [sample_message (lit "m1") (lit "user") (lit "hello");
                         sample_message (lit "m2") (lit "bot") (lit "Hi!")] [] in
  let first := state_of (ChatPanel.handleDeleteMessageClick_settled
                           {| ChatPanel.delete_messages := ChatPanel.messages s;
                              ChatPanel.delete_messageId := lit "m1" |}
                           (Resolved (ok_response ())) s) in
  let second := state_of (ChatPanel.handleDeleteMessageClick_settled
                            {| ChatPanel.delete_messages := ChatPanel.messages s;
                               ChatPanel.delete_messageId := lit "m2" |}
                            (Resolved (ok_response ())) first) in
  ChatPanel.messages first
  = filter (λ msg, Message.id msg ≠ lit "m1") (ChatPanel.messages s)
  ∧ ChatPanel.messages second
    = filter (λ msg, Message.id msg ≠ lit "m2") (ChatPanel.messages s)
  ∧ (lit "m1" ≠ lit "m2" → ∀ msg, msg ∈ ChatPanel.messages s →
       Message.id msg = lit "m1" →
       (msg ∉ ChatPanel.messages first) ∧ msg ∈ ChatPanel.messages second).
Proof.
  apply (second_delete_restores_the_first (lit "m1") (lit "m2")
           (sample_state [sample_message (lit "m1") (lit "user") (lit "hello");
                          sample_message (lit "m2") (lit "bot") (lit "Hi!")] [])).
  - reflexivity.
  - reflexivity.
  - reflexivity.
  - reflexivity.
Defined.

(** X6: a click on the Submit button and a plain Enter in the text area do
    what [handleSend] does: same state, same requests, same values kept;
    Enter also prevents the default of the event.  Enter with Shift, and any
    other key, changes nothing and prevents nothing. *)
Theorem submit_and_enter_run_handleSend
    (p : ChatPanel.Props) (clock : Clock) (s : ChatPanel.State) :
  ChatPanelInput.submit_click p clock s = ChatPanel.handleSend p clock s
  ∧ (let enter := ChatPanelInput.handleKeyDown
                    {| ChatPanelInput.key := lit "Enter";
                       ChatPanelInput.shiftKey := false |} p clock s in
     state_of enter = state_of (ChatPanel.handleSend p clock s)
     ∧ effects_of enter = effects_of (ChatPanel.handleSend p clock s)
     ∧ ∃ k, completion_of (ChatPanel.handleSend p clock s) = Ok k
            ∧ completion_of enter = Ok (true, k))
  ∧ (∀ e, ChatPanelInput.key e ≠ lit "Enter" ∨ ChatPanelInput.shiftKey e = true →
       ChatPanelInput.handleKeyDown e p clock s = (s, [], Ok (false, None))).
Proof.
  split; [|split].
  - unfold ChatPanelInput.submit_click, LoadingButton.handleClick. run_comp.
    rewrite submit_disabled_guard.
    destruct (ChatPanel.send_guard p s) eqn:Hguard; simpl.
    + by rewrite (handleSend_guarded _ _ _ Hguard).
    + by destruct (ChatPanel.handleSend p clock s) as [[s' es] r].
  - change (ChatPanelInput.handleKeyDown _ p clock)
      with (k ← ChatPanel.handleSend p clock; mret (true, k)).
    cbv zeta.
    destruct (ChatPanel.send_guard p s) eqn:Hguard.
    + run_comp. rewrite (handleSend_guarded _ _ _ Hguard). by eauto.
    + run_comp. rewrite (handleSend_started _ _ _ Hguard).
      unfold state_of, effects_of, completion_of; simpl. by eauto.
  - intros e He. unfold ChatPanelInput.handleKeyDown.
    destruct He as [Hkey|Hshift].
    + by rewrite bool_decide_eq_false_2.
    + rewrite Hshift. by rewrite andb_false_r.
Qed.

(** *** The client-made identifiers *)

Section IdentifierFacts.

Lemma lit_inj (a b : string) : lit a = lit b → a = b.
Proof.
  unfold lit. intros Heq.
  apply (f_equal (List.map ascii_of_N)) in Heq.
  rewrite !List.map_map in Heq.
  rewrite !(List.map_ext _ (λ c, c) ascii_N_embedding), !List.map_id in Heq.
  apply (f_equal string_of_list_ascii) in Heq.
  by rewrite !string_of_list_ascii_of_string in Heq.
Qed.

Lemma to_int_not_nil (n : Z) :
  Z.to_int n ≠ Decimal.Pos Decimal.Nil ∧ Z.to_int n ≠ Decimal.Neg Decimal.Nil.
Proof.
  destruct n as [|q|q]; simpl; split; try discriminate;
    intros [= Hnil]; by apply (DecimalPos.Unsigned.to_uint_nonnil q).
Qed.

Lemma number_to_string_inj (a b : Z) :
  number_to_string a = number_to_string b → a = b.
Proof.
  unfold number_to_string. intros Heq%lit_inj.
  apply DecimalZ.to_int_inj.
  destruct (to_int_not_nil a) as [Ha Ha'], (to_int_not_nil b) as [Hb Hb'].
  apply (f_equal NilZero.int_of_string) in Heq.
  rewrite !NilZero.isi in Heq by done. by injection Heq.
Qed.

End IdentifierFacts.

(** X7: the identifier of an optimistic message and the identifier of a
    failure message never coincide, both begin with [FAKEID-], and two
    identifiers of the same kind coincide only when the clock read the same
    millisecond. *)
Theorem client_identifiers_differ (clock clock' : Clock) (content content' : jsstring) :
  ChatPanel.temp_id clock ≠ Message.id (ChatPanel.failed_message content clock')
  ∧ is_temporary (ChatPanel.temp_id clock)
  ∧ is_temporary (Message.id (ChatPanel.failed_message content clock))
  ∧ (ChatPanel.temp_id clock = ChatPanel.temp_id clock' ↔ now clock = now clock')
  ∧ (Message.id (ChatPanel.failed_message content clock)
     = Message.id (ChatPanel.failed_message content' clock')
     ↔ now clock = now clock').
Proof.
  split; [discriminate|].
  split; [by exists (lit "TEMP-MESSAGE" ++ number_to_string (now clock))|].
  split; [by exists (lit "MESSAGE-FAILED" ++ number_to_string (now clock))|].
  unfold ChatPanel.temp_id, ChatPanel.failed_message; cbn [Message.id].
  split; (split; [intros Heq%app_inv_head; by apply number_to_string_inj
                 |by intros ->]).
Qed.

(* ================================================================== *)
(** ** Further properties of the chat sessions *)
(* ================================================================== *)

Section ChatPageMore.
Import ChatPage.

Lemma fetchChatHistory_settled_success closure response data s :
  ok response = true →
  response_json response = Ok data →
  fetchChatHistory_settled closure (Resolved response) s
  = ({| backendStatus := backendStatus s; isSidebarOpen := isSidebarOpen s;
        currentModel := currentModel s;
        currentChatId :=
          match data, closure with
          | first :: _, None => Some (ChatSession.id first)
          | _, _ => currentChatId s
          end;
        availableChats := data |}, [], Ok ()).
Proof.
  intros Hok Hjson. unfold fetchChatHistory_settled. run_comp.
  rewrite Hok, Hjson. simpl. by destruct data, closure.
Qed.

Lemma fetchChatHistory_settled_failure closure o s :
  request_failed o = true →
  fetchChatHistory_settled closure o s
  = ({| backendStatus := NetworkFailuireBackendStatus;
        isSidebarOpen := isSidebarOpen s; currentModel := currentModel s;
        currentChatId := currentChatId s; availableChats := [] |}, [], Ok ()).
Proof.
  intros Hfailed. unfold fetchChatHistory_settled, request_failed in *. run_comp.
  destruct o as [response|reason]; [|done].
  destruct (ok response); [|done].
  by destruct (response_json response).
Qed.

Lemma handleNewChat_settled_success response newChatData clock s :
  ok response = true →
  response_json response = Ok newChatData →
  handleNewChat_settled (Resolved response) clock s
  = ({| backendStatus := backendStatus s; isSidebarOpen := isSidebarOpen s;
        currentModel := currentModel s;
        currentChatId := Some (NewChatData.id newChatData);
        availableChats :=
          {| ChatSession.id := NewChatData.id newChatData;
             ChatSession.title := NewChatData.title newChatData;
             ChatSession.updated_at := isoString clock |} :: availableChats s |},
     [Navigate (lit "/chat/" ++ NewChatData.id newChatData)], Ok ()).
Proof.
  intros Hok Hjson. unfold handleNewChat_settled. run_comp.
  by rewrite Hok, Hjson.
Qed.

Lemma handleNewChat_settled_failure o clock s :
  request_failed o = true →
  handleNewChat_settled o clock s = (s, [], Ok ()).
Proof.
  intros Hfailed. unfold handleNewChat_settled, request_failed in *. run_comp.
  destruct o as [response|reason]; [|done].
  destruct (ok response); [|done].
  by destruct (response_json response).
Qed.

Lemma filter_absent chatId (l : list ChatSession.t) :
  chatId ∉ ChatSession.id <$> l →
  filter (λ chat, ChatSession.id chat ≠ chatId) l = l.
Proof.
  induction l as [|c l IH]; [done|].
  rewrite fmap_cons. intros [Hc Hl]%not_elem_of_cons.
  rewrite filter_cons_True by done. by rewrite IH.
Qed.

End ChatPageMore.

(** X8: the answer to the fetch of the chat list never changes a selection
    that existed when the fetch began.  A readable answer replaces the
    list; when no chat was selected at the start, its first session becomes
    the selection, and an empty answer selects nothing.  A failed fetch
    empties the list and records the network failure, without alert,
    navigation or retry. *)
Theorem chat_list_fetch_and_selection
    (closure : option jsstring) (o : fetch_outcome (list ChatSession.t))
    (s : ChatPage.State) :
  let run := ChatPage.fetchChatHistory_settled closure o s in
  completion_of run = Ok ()
  ∧ effects_of run = []
  ∧ (closure ≠ None →
     ChatPage.currentChatId (state_of run) = ChatPage.currentChatId s)
  ∧ (∀ response data,
       o = Resolved response → ok response = true →
       response_json response = Ok data →
       ChatPage.availableChats (state_of run) = data
       ∧ ChatPage.backendStatus (state_of run) = ChatPage.backendStatus s
       ∧ (closure = None → data ≠ [] →
          ChatPage.currentChatId (state_of run) = ChatSession.id <$> head data)
       ∧ (data = [] →
          ChatPage.currentChatId (state_of run) = ChatPage.currentChatId s))
  ∧ (request_failed o = true →
       ChatPage.availableChats (state_of run) = []
       ∧ ChatPage.backendStatus (state_of run)
         = ChatPage.NetworkFailuireBackendStatus
       ∧ ChatPage.currentChatId (state_of run) = ChatPage.currentChatId s).
Proof.
  intros run. subst run.
  destruct (request_failed o) eqn:Hfailed.
  - rewrite (fetchChatHistory_settled_failure _ _ _ Hfailed).
    split; [done|]. split; [done|]. split; [done|]. split; [|done].
    intros response data -> Hok Hjson. simpl in Hfailed.
    by rewrite Hok, Hjson in Hfailed.
  - destruct o as [response|reason]; [|done]. simpl in Hfailed.
    apply orb_false_iff in Hfailed as [Hok Hjson].
    apply negb_false_iff in Hok.
    destruct (response_json response) as [data|e] eqn:Hbody; [|done].
    rewrite (fetchChatHistory_settled_success _ _ _ _ Hok Hbody).
    unfold state_of, effects_of, completion_of; simpl.
    split; [done|]. split; [done|]. split; [|split; [|done]].
    + intros Hclosure. by destruct data, closure.
    + intros response' data' [= <-] _ Hbody'.
      rewrite Hbody in Hbody'. injection Hbody' as <-.
      split; [done|]. split; [done|]. split.
      * intros -> Hdata. by destruct data.
      * by intros ->.
Qed.

(** X9: a chat creation that fails, by a rejected promise, an error status
    or an unreadable body, is swallowed: the state is unchanged, nothing is
    shown and nothing is navigated. *)
Theorem failed_chat_creation_is_silent
    (o : fetch_outcome ChatPage.NewChatData.t) (clock : Clock)
    (s : ChatPage.State) :
  request_failed o = true →
  ChatPage.handleNewChat_settled o clock s = (s, [], Ok ()).
Proof. apply handleNewChat_settled_failure. Qed.

Lemma failed_chat_creation_is_silent_witness :
  ChatPage.handleNewChat_settled (Resolved (error_response 500))
    (sample_clock 1762048800000) sample_page
  = (sample_page, [], Ok ()).
Proof.
  apply (failed_chat_creation_is_silent (Resolved (error_response 500))
           (sample_clock 1762048800000) sample_page).
  reflexivity.
Defined.

(** X10: creating a chat and then deleting it.  The new session is put in
    front of the list and selected, with a navigation to its route.  When
    its identifier was not in the list, deleting it gives back the list as
    it was, whichever render the deletion was clicked on; clicked on the
    render that shows the new chat selected, it also clears the selection
    and navigates to the home route. *)
Theorem created_chat_can_be_deleted
    (response : Response ChatPage.NewChatData.t)
    (newChatData : ChatPage.NewChatData.t) (clock : Clock) (s : ChatPage.State)
    (closure_currentChatId : option jsstring) :
  ok response = true →
  response_json response = Ok newChatData →
  ChatPage.NewChatData.id newChatData
    ∉ ChatSession.id <$> ChatPage.availableChats s →
  let chatId := ChatPage.NewChatData.id newChatData in
  let created := ChatPage.handleNewChat_settled (Resolved response) clock
                   (state_of (ChatPage.handleNewChat s)) in
  let deleted := ChatPage.handleDeleteChat closure_currentChatId chatId
                   (state_of created) in
  requests (effects_of (ChatPage.handleNewChat s)) = [ChatPage.newChat_request]
  ∧ ChatPage.availableChats (state_of created)
    = {| ChatSession.id := chatId;
         ChatSession.title := ChatPage.NewChatData.title newChatData;
         ChatSession.updated_at := isoString clock |}
      :: ChatPage.availableChats s
  ∧ ChatPage.currentChatId (state_of created) = Some chatId
  ∧ effects_of created = [Navigate (lit "/chat/" ++ chatId)]
  ∧ ChatPage.availableChats (state_of deleted) = ChatPage.availableChats s
  ∧ (closure_currentChatId = ChatPage.currentChatId (state_of created) →
     ChatPage.currentChatId (state_of deleted) = None
     ∧ effects_of deleted = [Navigate (lit "/")]).
Proof.
  intros Hok Hjson Hfresh chatId created deleted. subst chatId created deleted.
  change (state_of (ChatPage.handleNewChat s)) with s.
  rewrite (handleNewChat_settled_success _ _ _ _ Hok Hjson).
  unfold state_of at 1 2 4 6, effects_of at 2. cbn [fst snd].
  split; [done|]. split; [done|]. split; [done|]. split; [done|]. split.
  - rewrite availableChats_handleDeleteChat.
    cbn [ChatPage.availableChats].
    rewrite filter_cons_False by (by intros Hne; apply Hne).
    by apply filter_absent.
  - cbn [ChatPage.currentChatId]. intros ->.
    by rewrite handleDeleteChat_current.
Qed.

Lemma created_chat_can_be_deleted_witness :
  let response : Response ChatPage.NewChatData.t :=
    ok_response {| ChatPage.NewChatData.id := lit "d";
                   ChatPage.NewChatData.title := lit "New Chat" |} in
  let created := ChatPage.handleNewChat_settled (Resolved response)
                   (sample_clock 1762048800000)
                   (state_of (ChatPage.handleNewChat sample_page)) in
  let deleted := ChatPage.handleDeleteChat
                   (ChatPage.currentChatId (state_of created)) (lit "d")
                   (state_of created) in
  ChatPage.availableChats (state_of created)
  = {| ChatSession.id := lit "d"; ChatSession.title := lit "New Chat";
       ChatSession.updated_at := isoString (sample_clock 1762048800000) |}
    :: ChatPage.availableChats sample_page
  ∧ ChatPage.currentChatId (state_of created) = Some (lit "d")
  ∧ ChatPage.availableChats (state_of deleted)
    = ChatPage.availableChats sample_page
  ∧ ChatPage.currentChatId (state_of deleted) = None
  ∧ effects_of deleted = [Navigate (lit "/")].
Proof.
  destruct (created_chat_can_be_deleted
              (ok_response {| ChatPage.NewChatData.id := lit "d";
                              ChatPage.NewChatData.title := lit "New Chat" |})
              {| ChatPage.NewChatData.id := lit "d";
                 ChatPage.NewChatData.title := lit "New Chat" |}
              (sample_clock 1762048800000) sample_page (Some (lit "d")))
    as (_ & Hcreated & Hselected & _ & Hrestored & Hcleared);
    [reflexivity|reflexivity|by_evaluation|].
  split; [exact Hcreated|]. split; [exact Hselected|].
  split; [exact Hrestored|]. apply Hcleared. reflexivity.
Defined.



Section SidebarMore.

Lemma find_first chatId (before behind : list ChatSession.t) session :
  ChatSession.id session = chatId →
  chatId ∉ ChatSession.id <$> before →
  List.find (λ c, bool_decide (ChatSession.id c = chatId))
            (before ++ session :: behind)
  = Some session.
Proof.
  intros Hsession. induction before as [|c before IH]; simpl.
  - intros _. by rewrite bool_decide_eq_true_2.
  - intros [Hc Hbefore]%not_elem_of_cons.
    rewrite bool_decide_eq_false_2 by done. by apply IH.
Qed.

Lemma find_absent chatId (chats : list ChatSession.t) :
  chatId ∉ ChatSession.id <$> chats →
  List.find (λ c, bool_decide (ChatSession.id c = chatId)) chats = None.
Proof.
  induction chats as [|c chats IH]; simpl; [done|].
  intros [Hc Hchats]%not_elem_of_cons.
  rewrite bool_decide_eq_false_2 by done. by apply IH.
Qed.

End SidebarMore.

(** X12: the delete button of the sidebar first asks for confirmation and
    changes nothing by itself.  It issues the DELETE request for the chat
    exactly when the user confirms.  When the request succeeds, the page
    runs the [handleDeleteChat] of the render the button was clicked on, on
    the state as it is by then, and nothing else: the chat leaves the list,
    and the selection is cleared, with a navigation to the home route,
    exactly when the chat was selected at the click. *)
Theorem sidebar_delete_asks_then_deletes
    (chats : list ChatSession.t) (chatId : jsstring) (confirmed : bool)
    (response : Response ()) (s s' : ChatPage.State) :
  let clicked := Sidebar.handleDeleteClick chats chatId confirmed s in
  let onDeleteChat := ChatPage.handleDeleteChat (ChatPage.currentChatId s) in
  let settled := Sidebar.handleDeleteClick_settled onDeleteChat chatId
                   (Resolved response) s' in
  state_of clicked = s
  ∧ completion_of clicked = Ok confirmed
  ∧ effects_of clicked
    = [StopPropagation; Confirm (Sidebar.confirm_text chats chatId)]
      ++ (if confirmed then [Fetch (Sidebar.deleteChat_request chatId)] else [])
  ∧ Sidebar.deleteChat_request chatId
    = {| method := DELETE; url := API_PREFIX ++ lit "/api/chat/" ++ chatId;
         headers := []; body := None |}
  ∧ (ok response = true →
     settled = onDeleteChat chatId s'
     ∧ ChatPage.availableChats (state_of settled)
       = filter (λ chat, ChatSession.id chat ≠ chatId) (ChatPage.availableChats s')
     ∧ (ChatPage.currentChatId s = Some chatId →
        ChatPage.currentChatId (state_of settled) = None
        ∧ effects_of settled = [Navigate (lit "/")])
     ∧ (ChatPage.currentChatId s ≠ Some chatId →
        ChatPage.currentChatId (state_of settled) = ChatPage.currentChatId s'
        ∧ effects_of settled = [])).
Proof.
  intros clicked onDeleteChat settled. subst clicked onDeleteChat settled.
  split; [by destruct confirmed|]. split; [by destruct confirmed|].
  split; [by destruct confirmed|]. split; [done|].
  intros Hok.
  assert (Hsettled :
    Sidebar.handleDeleteClick_settled
      (ChatPage.handleDeleteChat (ChatPage.currentChatId s)) chatId
      (Resolved response) s'
    = ChatPage.handleDeleteChat (ChatPage.currentChatId s) chatId s').
  { unfold Sidebar.handleDeleteClick_settled. run_comp. rewrite Hok. simpl.
    destruct (decide (ChatPage.currentChatId s = Some chatId)) as [Hc|Hc].
    - by rewrite (handleDeleteChat_current _ _ _ Hc).
    - by rewrite (handleDeleteChat_other _ _ _ Hc). }
  rewrite Hsettled. split; [done|].
  split; [apply availableChats_handleDeleteChat|].
  split; intros Hc.
  - by rewrite (handleDeleteChat_current _ _ _ Hc).
  - by rewrite (handleDeleteChat_other _ _ _ Hc).
Qed.

Lemma sidebar_delete_asks_then_deletes_witness :
  let switched := state_of (ChatPage.handleSelectChat (lit "c") sample_page) in
  let onDeleteChat :=
    ChatPage.handleDeleteChat (ChatPage.currentChatId sample_page) in
  let settled := Sidebar.handleDeleteClick_settled onDeleteChat (lit "b")
                   (Resolved (ok_response ())) switched in
  ChatPage.availableChats (state_of settled)
  = filter (λ chat, ChatSession.id chat ≠ lit "b")
           (ChatPage.availableChats switched)
  ∧ ChatPage.currentChatId (state_of settled) = None
  ∧ effects_of settled = [Navigate (lit "/")].
Proof.
  destruct (sidebar_delete_asks_then_deletes
              (ChatPage.availableChats sample_page) (lit "b") true
              (ok_response ()) sample_page
              (state_of (ChatPage.handleSelectChat (lit "c") sample_page)))
    as (_ & _ & _ & _ & Hsettled).
  destruct Hsettled as (_ & Hchats & Hcleared & _); [reflexivity|].
  split; [exact Hchats|]. apply Hcleared. reflexivity.
Defined.

(** X13: the confirmation names the chat by the title of the first session
    that carries the identifier; it says [Untitled] when that title is empty
    and when no session carries the identifier. *)
Theorem confirmation_names_the_chat
    (chats : list ChatSession.t) (chatId : jsstring) :
  (chatId ∉ ChatSession.id <$> chats →
   Sidebar.title_of chats chatId = lit "Untitled")
  ∧ (∀ before session behind,
       chats = before ++ session :: behind →
       ChatSession.id session = chatId →
       chatId ∉ ChatSession.id <$> before →
       Sidebar.title_of chats chatId
       = if decide (ChatSession.title session = [])
         then lit "Untitled" else ChatSession.title session)
  ∧ Sidebar.confirm_text chats chatId
    = lit "Are you sure you want to delete the chat " ++ [34%N]
        ++ Sidebar.title_of chats chatId ++ [34%N] ++ lit "?".
Proof.
  unfold Sidebar.title_of. split; [|split; [|done]].
  - intros Habsent. by rewrite find_absent.
  - intros before session behind -> Hsession Hbefore.
    rewrite (find_first _ _ _ _ Hsession Hbefore).
    by destruct (ChatSession.title session).
Qed.

(* ================================================================== *)
(** ** Further properties of the start page and of the video pages *)
(* ================================================================== *)

(** X14: a health check never stores a status that is ready: a state that
    is not ready stays so.  The page is reloaded exactly when the answer is
    readable and both [ok] and [ready]; a stored status is [ok]; a failed
    check changes nothing, shows nothing and issues no request. *)
Theorem health_check_never_stores_ready
    (o : fetch_outcome BackendStatus.t) (s : InitPage.State) :
  let run := InitPage.checkHealth_settled o s in
  completion_of run = Ok ()
  ∧ requests (effects_of run) = []
  ∧ (BackendStatus.ready s = false → BackendStatus.ready (state_of run) = false)
  ∧ (Reload ∈ effects_of run
     ↔ ∃ response data, o = Resolved response ∧ ok response = true
         ∧ response_json response = Ok data
         ∧ BackendStatus.ok data = true ∧ BackendStatus.ready data = true)
  ∧ (state_of run = s ∨ BackendStatus.ok (state_of run) = true)
  ∧ (request_failed o = true → run = (s, [], Ok ())).
Proof.
  intros run. subst run. unfold InitPage.checkHealth_settled. run_comp.
  destruct o as [response|reason]; simpl.
  - destruct (ok response) eqn:Hok; simpl.
    + destruct (response_json response) as [data|e] eqn:Hbody; simpl.
      * destruct (BackendStatus.ok data) eqn:Hdok,
                 (BackendStatus.ready data) eqn:Hdready; simpl;
          unfold state_of, effects_of, completion_of; simpl;
          (split; [done|]); (split; [done|]); (split; [done|]);
          (split; [|split; [by auto|done]]).
        -- split; [by eauto 10|]. intros _. apply list_elem_of_singleton. done.
        -- split; [by intros ?%elem_of_nil|].
           intros (r' & d' & [= <-] & _ & Hd & _ & Hr).
           rewrite Hbody in Hd. injection Hd as <-. congruence.
        -- split; [by intros ?%elem_of_nil|].
           intros (r' & d' & [= <-] & _ & Hd & Ho & _).
           rewrite Hbody in Hd. injection Hd as <-. congruence.
        -- split; [by intros ?%elem_of_nil|].
           intros (r' & d' & [= <-] & _ & Hd & Ho & _).
           rewrite Hbody in Hd. injection Hd as <-. congruence.
      * unfold state_of, effects_of, completion_of; simpl.
        repeat (split; [done|]). split; [|by auto].
        split; [by intros ?%elem_of_nil|].
        intros (r' & d' & [= <-] & _ & Hd & _). congruence.
    + unfold state_of, effects_of, completion_of; simpl.
      repeat (split; [done|]). split; [|by auto].
      split; [by intros ?%elem_of_nil|].
      intros (r' & d' & [= <-] & Hok' & _). congruence.
  - unfold state_of, effects_of, completion_of; simpl.
    repeat (split; [done|]). split; [|by auto].
    split; [by intros ?%elem_of_nil|].
    intros (r' & d' & Hr & _). discriminate Hr.
Qed.

Section PlayGroundFacts.

Lemma fetchData_settled_success video_response thumbs_response video thumbnails s :
  response_json video_response = Ok video →
  response_json thumbs_response = Ok thumbnails →
  PlayGround.fetchData_settled (Resolved video_response)
    (Resolved thumbs_response) s
  = ({| PlayGround.videoData :=
          Some {| VideoData.id := VideoData.id video;
                  VideoData.title := VideoData.title video;
                  VideoData.video_url := VideoData.video_url video;
                  VideoData.thumbnails := thumbnails |};
        PlayGround.loading := false |}, [], Ok ()).
Proof.
  intros Hvideo Hthumbs.
  unfold PlayGround.fetchData_settled, PlayGround.promise_all. run_comp.
  cbv [result_bind result_ret]. by rewrite Hvideo, Hthumbs.
Qed.

Lemma fetchData_settled_failure videoRes thumbsRes s :
  load_failed videoRes thumbsRes = true →
  PlayGround.fetchData_settled videoRes thumbsRes s
  = ({| PlayGround.videoData := PlayGround.videoData s;
        PlayGround.loading := false |},
     [MessageError (lit "Failed to load video resources")], Ok ()).
Proof.
  intros Hfailed.
  unfold PlayGround.fetchData_settled, PlayGround.promise_all, load_failed in *.
  destruct videoRes as [video_response|reason];
    [destruct thumbsRes as [thumbs_response|reason]|]; run_comp;
    cbv [result_bind result_ret]; try done.
  destruct (response_json video_response) as [video|e]; [|done].
  by destruct (response_json thumbs_response).
Qed.

End PlayGroundFacts.

(** X15: the load of [PlayGround] always ends with the loading flag off
    and issues no further request.  It never looks at the status of the two
    responses: whenever both bodies are readable, the video is stored with
    the thumbnails of the second response.  When a promise is rejected or a
    body is unreadable, one error toast is shown and the video data stay as
    they were. *)
Theorem playground_load_ignores_status
    (videoRes : fetch_outcome VideoData.t)
    (thumbsRes : fetch_outcome (list Thumbnail.t)) (s : PlayGround.State) :
  let run := PlayGround.fetchData_settled videoRes thumbsRes s in
  PlayGround.loading (state_of run) = false
  ∧ completion_of run = Ok ()
  ∧ requests (effects_of run) = []
  ∧ (∀ video_response thumbs_response video thumbnails,
       videoRes = Resolved video_response →
       thumbsRes = Resolved thumbs_response →
       response_json video_response = Ok video →
       response_json thumbs_response = Ok thumbnails →
       effects_of run = []
       ∧ PlayGround.videoData (state_of run)
         = Some {| VideoData.id := VideoData.id video;
                   VideoData.title := VideoData.title video;
                   VideoData.video_url := VideoData.video_url video;
                   VideoData.thumbnails := thumbnails |})
  ∧ (load_failed videoRes thumbsRes = true →
       effects_of run = [MessageError (lit "Failed to load video resources")]
       ∧ PlayGround.videoData (state_of run) = PlayGround.videoData s).
Proof.
  intros run. subst run.
  destruct (load_failed videoRes thumbsRes) eqn:Hfailed.
  - rewrite (fetchData_settled_failure _ _ _ Hfailed).
    repeat (split; [done|]). split; [|done].
    intros video_response thumbs_response video thumbnails -> -> Hvideo Hthumbs.
    simpl in Hfailed. by rewrite Hvideo, Hthumbs in Hfailed.
  - destruct videoRes as [video_response|reason]; [|done].
    destruct thumbsRes as [thumbs_response|reason]; [|done].
    simpl in Hfailed.
    destruct (response_json video_response) as [video|e] eqn:Hvideo; [|done].
    destruct (response_json thumbs_response) as [thumbnails|e] eqn:Hthumbs;
      [|done].
    rewrite (fetchData_settled_success _ _ _ _ _ Hvideo Hthumbs).
    repeat (split; [done|]). split; [|done].
    intros video_response' thumbs_response' video' thumbnails' [= <-] [= <-] Hv Ht.
    rewrite Hvideo in Hv. rewrite Hthumbs in Ht. by simplify_eq.
Qed.

Section LectureFetchFacts.

Lemma fetchTranscripts_settled_failure o s :
  request_failed o = true →
  LectureTranscripts.fetchTranscripts_settled o s = (s, [], Ok ()).
Proof.
  intros Hfailed.
  unfold LectureTranscripts.fetchTranscripts_settled, request_failed in *.
  run_comp. destruct o as [response|reason]; [|done].
  destruct (ok response); [|done].
  by destruct (response_json response).
Qed.

Lemma fetchVideoSource_settled_failure o s :
  request_failed o = true →
  LectureVideoAnalysis.fetchVideoSource_settled o s = (s, [], Ok ()).
Proof.
  intros Hfailed.
  unfold LectureVideoAnalysis.fetchVideoSource_settled, request_failed in *.
  run_comp. destruct o as [response|reason]; [|done].
  destruct (ok response); [|done].
  by destruct (response_json response).
Qed.

Lemma fetchSlidesThumbnails_settled_failure o s :
  request_failed o = true →
  LectureVideoAnalysis.fetchSlidesThumbnails_settled o s = (s, [], Ok ()).
Proof.
  intros Hfailed.
  unfold LectureVideoAnalysis.fetchSlidesThumbnails_settled, request_failed in *.
  run_comp. destruct o as [response|reason]; [|done].
  destruct (ok response); [|done].
  by destruct (response_json response).
Qed.

End LectureFetchFacts.

(** X16: on the lecture page a failed fetch is silent and leaves the state
    as it is.  The transcript list keeps its loading flag, which only a
    readable answer turns off, and so does the section list when its promise
    is rejected; the video address and the thumbnails stay as they were. *)
Theorem lecture_fetch_failures_are_silent :
  (∀ (o : fetch_outcome TranscriptData.t) s,
     request_failed o = true →
     LectureTranscripts.fetchTranscripts_settled o s = (s, [], Ok ()))
  ∧ (∀ (response : Response TranscriptData.t) data s,
     ok response = true → response_json response = Ok data →
     LectureTranscripts.fetchTranscripts_settled (Resolved response) s
     = ({| LectureTranscripts.transcriptData := Some data;
           LectureTranscripts.loading := false |}, [], Ok ()))
  ∧ (∀ reason s,
     LectureSections.fetchSections_settled (Rejected reason) s = (s, [], Ok ()))
  ∧ (∀ (o : fetch_outcome jsstring) s,
     request_failed o = true →
     LectureVideoAnalysis.fetchVideoSource_settled o s = (s, [], Ok ()))
  ∧ (∀ (o : fetch_outcome (list ThumbnailItem.t)) s,
     request_failed o = true →
     LectureVideoAnalysis.fetchSlidesThumbnails_settled o s = (s, [], Ok ())).
Proof.
  split; [apply fetchTranscripts_settled_failure|].
  split.
  { intros response data s Hok Hjson.
    unfold LectureTranscripts.fetchTranscripts_settled. run_comp.
    by rewrite Hok, Hjson. }
  split; [done|].
  split; [apply fetchVideoSource_settled_failure|].
  apply fetchSlidesThumbnails_settled_failure.
Qed.

Lemma lecture_fetch_failures_are_silent_witness :
  LectureTranscripts.fetchTranscripts_settled (Rejected network_error)
    {| LectureTranscripts.transcriptData := None;
       LectureTranscripts.loading := true |}
  = ({| LectureTranscripts.transcriptData := None;
        LectureTranscripts.loading := true |}, [], Ok ()).
Proof.
  destruct lecture_fetch_failures_are_silent as (Hfailed & _).
  apply Hfailed. reflexivity.
Defined.

(* ================================================================== *)
(** ** Properties of the simulated chat and upload *)
(* ================================================================== *)

Section LectureChatFacts.
Import LectureChatBot.

Lemma handleSendMessage_blank clock s :
  blank (inputValue s) → handleSendMessage clock s = (s, None).
Proof.
  intros Hblank%trim_nil. unfold handleSendMessage. by rewrite Hblank.
Qed.

Lemma handleSendMessage_sent clock s :
  ¬ blank (inputValue s) →
  handleSendMessage clock s
  = ({| chatMessages :=
          chatMessages s ++ [{| ChatMessage.id := now clock;
                                ChatMessage.text := inputValue s;
                                ChatMessage.sender := ChatMessage.user |}];
        inputValue := [] |},
     Some {| delay := 1000; closure_inputValue := inputValue s |}).
Proof.
  intros Hblank. unfold handleSendMessage.
  destruct (trim (inputValue s)) as [|c rest] eqn:Htrim; [|done].
  by apply trim_nil in Htrim.
Qed.

End LectureChatFacts.

(** X17: the simulated chat only ever appends.  A send of a blank input
    changes nothing and sets no timer; any other send appends the user
    message with the text as typed, clears the input and sets one timer of
    a second; the timer appends one agent message to the list as it is by
    then and leaves the input alone. *)
Theorem lecture_chat_only_appends
    (clock clock' : Clock) (s s' : LectureChatBot.State)
    (t : LectureChatBot.Timeout) :
  LectureChatBot.chatMessages s
    `prefix_of` LectureChatBot.chatMessages (LectureChatBot.handleSendMessage clock s).1
  ∧ (blank (LectureChatBot.inputValue s) →
     LectureChatBot.handleSendMessage clock s = (s, None))
  ∧ (¬ blank (LectureChatBot.inputValue s) →
     LectureChatBot.chatMessages (LectureChatBot.handleSendMessage clock s).1
     = LectureChatBot.chatMessages s
       ++ [{| ChatMessage.id := now clock;
              ChatMessage.text := LectureChatBot.inputValue s;
              ChatMessage.sender := ChatMessage.user |}]
     ∧ LectureChatBot.inputValue (LectureChatBot.handleSendMessage clock s).1 = []
     ∧ (LectureChatBot.handleSendMessage clock s).2
       = Some {| LectureChatBot.delay := 1000;
                 LectureChatBot.closure_inputValue := LectureChatBot.inputValue s |})
  ∧ LectureChatBot.chatMessages (LectureChatBot.timeout_fired t clock' s')
    = LectureChatBot.chatMessages s'
      ++ [{| ChatMessage.id := now clock';
             ChatMessage.text :=
               LectureChatBot.answer_to (LectureChatBot.closure_inputValue t);
             ChatMessage.sender := ChatMessage.agent |}]
  ∧ LectureChatBot.inputValue (LectureChatBot.timeout_fired t clock' s')
    = LectureChatBot.inputValue s'.
Proof.
  destruct (trim (LectureChatBot.inputValue s)) as [|c rest] eqn:Htrim.
  - apply trim_nil in Htrim.
    rewrite (handleSendMessage_blank clock s Htrim). simpl.
    split; [done|]. split; [done|]. split; [done|]. done.
  - assert (Hnot : ¬ blank (LectureChatBot.inputValue s)).
    { intros Hblank%trim_nil. congruence. }
    rewrite (handleSendMessage_sent clock s Hnot). simpl.
    split; [by eexists|]. split; [done|]. split; [done|]. done.
Qed.

(** X18: two queries sent one after the other, before either is answered:
    both timers append their answer to the list as it is when they fire, so
    nothing is lost, and each answer quotes the query of its own send, not
    the text in the input at the time. *)
Theorem lecture_chat_answers_each_query
    (q1 q2 : jsstring) (c1 c2 c3 c4 : Clock) (s : LectureChatBot.State) :
  ¬ blank q1 →
  ¬ blank q2 →
  ∃ s1 t1 s2 t2,
    LectureChatBot.handleSendMessage c1 (LectureChatBot.setInputValue q1 s)
    = (s1, Some t1)
    ∧ LectureChatBot.handleSendMessage c2 (LectureChatBot.setInputValue q2 s1)
      = (s2, Some t2)
    ∧ LectureChatBot.chatMessages
        (LectureChatBot.timeout_fired t2 c4 (LectureChatBot.timeout_fired t1 c3 s2))
      = LectureChatBot.chatMessages s
        ++ [{| ChatMessage.id := now c1; ChatMessage.text := q1;
               ChatMessage.sender := ChatMessage.user |};
            {| ChatMessage.id := now c2; ChatMessage.text := q2;
               ChatMessage.sender := ChatMessage.user |};
            {| ChatMessage.id := now c3;
               ChatMessage.text := LectureChatBot.answer_to q1;
               ChatMessage.sender := ChatMessage.agent |};
            {| ChatMessage.id := now c4;
               ChatMessage.text := LectureChatBot.answer_to q2;
               ChatMessage.sender := ChatMessage.agent |}].
Proof.
  intros Hq1 Hq2.
  do 4 eexists. split; [by apply handleSendMessage_sent|].
  split; [by apply handleSendMessage_sent|].
  simpl. by rewrite <- !app_assoc.
Qed.

Lemma lecture_chat_answers_each_query_witness :
  ∃ s1 t1 s2 t2,
    LectureChatBot.handleSendMessage (sample_clock 1762048800000)
      (LectureChatBot.setInputValue (lit "What is GBM?")
         {| LectureChatBot.chatMessages := []; LectureChatBot.inputValue := [] |})
    = (s1, Some t1)
    ∧ LectureChatBot.handleSendMessage (sample_clock 1762048800400)
        (LectureChatBot.setInputValue (lit "And SVM?") s1)
      = (s2, Some t2)
    ∧ LectureChatBot.chatMessages
        (LectureChatBot.timeout_fired t2 (sample_clock 1762048801400)
           (LectureChatBot.timeout_fired t1 (sample_clock 1762048801000) s2))
      = LectureChatBot.chatMessages
          {| LectureChatBot.chatMessages := []; LectureChatBot.inputValue := [] |}
        ++ [{| ChatMessage.id := 1762048800000; ChatMessage.text := lit "What is GBM?";
               ChatMessage.sender := ChatMessage.user |};
            {| ChatMessage.id := 1762048800400; ChatMessage.text := lit "And SVM?";
               ChatMessage.sender := ChatMessage.user |};
            {| ChatMessage.id := 1762048801000;
               ChatMessage.text := LectureChatBot.answer_to (lit "What is GBM?");
               ChatMessage.sender := ChatMessage.agent |};
            {| ChatMessage.id := 1762048801400;
               ChatMessage.text := LectureChatBot.answer_to (lit "And SVM?");
               ChatMessage.sender := ChatMessage.agent |}].
Proof.
  apply (lecture_chat_answers_each_query (lit "What is GBM?") (lit "And SVM?")
           (sample_clock 1762048800000) (sample_clock 1762048800400)
           (sample_clock 1762048801000) (sample_clock 1762048801400)).
  - unfold blank. by_evaluation.
  - unfold blank. by_evaluation.
Defined.

(** X19: every simulated upload runs the same course.  [startUpload] sets
    the progress to 0 and starts the interval; ten ticks raise the progress
    by 10 each to 100 and do nothing else; the eleventh leaves it at 100,
    clears the interval and sets the timer of [finishUpload], which ends the
    upload and starts the processing, itself ended by a second timer.  The
    progress never exceeds 100 and the input is never touched. *)
Theorem upload_runs_eleven_ticks (s : UploadVideo.State) :
  let started := (UploadVideo.startUpload s).1 in
  let ticked := UploadVideo.ticks 11 started in
  let finished := (UploadVideo.finishUpload ticked).1 in
  let processed := UploadVideo.processing_done finished in
  (UploadVideo.startUpload s).2 = [SetInterval 200]
  ∧ UploadVideo.isUploading started = true
  ∧ (λ n, UploadVideo.uploadProgress (UploadVideo.ticks n started)) <$> seq 0 12
    = [0; 10; 20; 30; 40; 50; 60; 70; 80; 90; 100; 100]%float
  ∧ (λ n, (UploadVideo.tick (UploadVideo.ticks n started)).2) <$> seq 0 11
    = replicate 10 [] ++ [[ClearInterval; SetTimeout 500]]
  ∧ (λ n, UploadVideo.interval (UploadVideo.ticks n started)) <$> seq 0 12
    = replicate 11 true ++ [false]
  ∧ (UploadVideo.finishUpload ticked).2 = [SetTimeout 3000]
  ∧ finished
    = {| UploadVideo.isProcessing := true; UploadVideo.isUploading := false;
         UploadVideo.inputValue := UploadVideo.inputValue s;
         UploadVideo.uploadProgress := 100%float;
         UploadVideo.interval := false |}
  ∧ processed
    = {| UploadVideo.isProcessing := false; UploadVideo.isUploading := false;
         UploadVideo.inputValue := UploadVideo.inputValue s;
         UploadVideo.uploadProgress := 100%float;
         UploadVideo.interval := false |}.
Proof.
  destruct s as [processing uploading input progress running].
  vm_compute. by repeat split.
Qed.

(** X20: only the first file dropped or chosen counts.  When its type
    begins with [video/] the upload starts; otherwise one error toast is
    shown and the state is unchanged; with no file nothing happens.  A drop
    does the same after preventing the default of the event. *)
Theorem only_videos_are_uploaded
    (file : UploadVideo.File) (rest : list UploadVideo.File)
    (s : UploadVideo.State) :
  (lit "video/" `prefix_of` UploadVideo.type file →
     UploadVideo.handleFileChange (file :: rest) s = UploadVideo.startUpload s)
  ∧ (¬ lit "video/" `prefix_of` UploadVideo.type file →
     UploadVideo.handleFileChange (file :: rest) s
     = (s, [Browser (MessageError (lit "Please upload a video file"))]))
  ∧ UploadVideo.handleFileChange [] s = (s, [])
  ∧ (∀ files,
       UploadVideo.handleDrop files s
       = ((UploadVideo.handleFileChange files s).1,
          PreventDefault :: (UploadVideo.handleFileChange files s).2)).
Proof.
  unfold UploadVideo.handleFileChange, UploadVideo.handleDrop, UploadVideo.is_video.
  split; [|split; [|split; [done|]]].
  - intros Hvideo. by rewrite bool_decide_eq_true_2.
  - intros Hother. by rewrite bool_decide_eq_false_2.
  - intros [|first files]; [done|]. by destruct (bool_decide _).
Qed.

(* ================================================================== *)
(** ** Answers that arrive out of order *)
(* ================================================================== *)

(** X21: the answers to the fetches of messages are applied in the order
    in which they arrive.  When chat [a] and then chat [b] are selected and
    the answer for [b] arrives before the answer for [a], the list ends up
    showing the messages of [a], although [b] is the selected chat. *)
Theorem late_answer_overwrites_messages
    (JSON_parse : jsstring → result json) (a b model : jsstring)
    (response_a response_b : Response (list MessageHttpResponse.t))
    (messages_a messages_b : list MessageHttpResponse.t)
    (clock_a clock_b : Clock) (s : ChatPanel.State) :
  ok response_a = true → response_json response_a = Ok messages_a →
  ok response_b = true → response_json response_b = Ok messages_b →
  let select id := {| ChatPanel.currentChatId := Some id;
                      ChatPanel.currentModel := model |} in
  let selected_a := ChatPanel.fetchMessages_effect (select a) s in
  let selected_b := ChatPanel.fetchMessages_effect (select b) (state_of selected_a) in
  let answered_b := ChatPanel.fetchMessages_settled JSON_parse
                      (Resolved response_b) clock_b (state_of selected_b) in
  let answered_a := ChatPanel.fetchMessages_settled JSON_parse
                      (Resolved response_a) clock_a (state_of answered_b) in
  requests (effects_of selected_a) = [ChatPanel.fetchMessages_request a]
  ∧ requests (effects_of selected_b) = [ChatPanel.fetchMessages_request b]
  ∧ ChatPanel.messages (state_of selected_b) = ChatPanel.messages s
  ∧ ids (ChatPanel.messages (state_of answered_b))
    = MessageHttpResponse.id <$> messages_b
  ∧ ids (ChatPanel.messages (state_of answered_a))
    = MessageHttpResponse.id <$> messages_a
  ∧ ChatPanel.messages (state_of answered_a)
    = ChatPanel.messages (state_of
        (ChatPanel.fetchMessages_settled JSON_parse (Resolved response_a)
           clock_a s)).
Proof.
  intros Hoka Hja Hokb Hjb select selected_a selected_b answered_b answered_a.
  subst select selected_a selected_b answered_b answered_a.
  split; [done|]. split; [done|]. split; [done|].
  change (state_of (ChatPanel.fetchMessages_effect _
            (state_of (ChatPanel.fetchMessages_effect _ s)))) with s.
  destruct (convert_all_completes JSON_parse messages_a) as (data_a & Hda & Hia).
  destruct (convert_all_completes JSON_parse messages_b) as (data_b & Hdb & Hib).
  destruct (fetchMessages_settled_success JSON_parse _ _ clock_b s Hokb Hjb)
    as (data_b' & Hdb' & ->).
  rewrite Hdb in Hdb'. injection Hdb' as <-.
  split; [done|].
  destruct (fetchMessages_settled_success JSON_parse _ _ clock_a s Hoka Hja)
    as (data_a' & Hda' & ->).
  rewrite Hda in Hda'. injection Hda' as <-.
  destruct (fetchMessages_settled_success JSON_parse _ _ clock_a
              (state_of (ChatPanel.setMessages (λ _, data_b) s, @nil effect, Ok ()))
              Hoka Hja)
    as (data_a' & Hda' & ->).
  rewrite Hda in Hda'. injection Hda' as <-.
  by split.
Qed.

Lemma late_answer_overwrites_messages_witness :
  let select id := {| ChatPanel.currentChatId := Some id;
                      ChatPanel.currentModel := lit "qwen-turbo" |} in
  let s := sample_state [] [] in
  let response_a := ok_response [sample_stored (lit "a1")] in
  let response_b := ok_response [sample_stored (lit "b1"); sample_stored (lit "b2")] in
  let answered_b := ChatPanel.fetchMessages_settled JSONRef.JSON_parse
                      (Resolved response_b) (sample_clock 1762048800400)
                      (state_of (ChatPanel.fetchMessages_effect (select (lit "b"))
                         (state_of (ChatPanel.fetchMessages_effect (select (lit "a")) s)))) in
  let answered_a := ChatPanel.fetchMessages_settled JSONRef.JSON_parse
                      (Resolved response_a) (sample_clock 1762048800900)
                      (state_of answered_b) in
  ids (ChatPanel.messages (state_of answered_b)) = [lit "b1"; lit "b2"]
  ∧ ids (ChatPanel.messages (state_of answered_a)) = [lit "a1"].
Proof.
  destruct (late_answer_overwrites_messages JSONRef.JSON_parse (lit "a") (lit "b")
              (lit "qwen-turbo")
              (ok_response [sample_stored (lit "a1")])
              (ok_response [sample_stored (lit "b1"); sample_stored (lit "b2")])
              [sample_stored (lit "a1")]
              [sample_stored (lit "b1"); sample_stored (lit "b2")]
              (sample_clock 1762048800900) (sample_clock 1762048800400)
              (sample_state [] []))
    as (_ & _ & _ & Hb & Ha & _); [reflexivity|reflexivity|reflexivity|reflexivity|].
  split; [exact Hb|exact Ha].
Defined.
